(** * RLE assessment repository initialisation: a shallow embedding

    The development embeds the two scripts of the repository,
    [scripts/init_repo.py] and [scripts/upload_demo_asset.py].  Both are
    sequential drivers of external tools; the embedding therefore consists of

    - the Python string operations the scripts use ([str.strip], [in],
      [" ".join], truthiness);
    - a state-and-exception monad whose state is the chronological trace of
      everything the script did to the outside world (processes run, sleeps,
      console output), and whose exceptions are the Python exceptions the
      scripts raise;
    - the external tools as an oracle [Env] that answers every process call;
    - the functions of the scripts, statement by statement.  *)

From Stdlib Require Import String Ascii List ZArith QArith Bool Lia DecimalString.
Import ListNotations.

Local Open Scope list_scope.
Local Open Scope Z_scope.
Local Open Scope string_scope.

(* ====================================================================== *)
(** ** Python strings *)
(* ====================================================================== *)

(** A Python [str] is a Rocq [string].  Text outside ASCII is carried as its
    UTF-8 bytes, so the whitespace recognised by [strip] is the ASCII
    whitespace of [str.isspace]: TAB, LF, VT, FF, CR, the four separators
    FS, GS, RS, US, and the space. *)
Module PyStr.

Definition isspace (c : ascii) : bool :=
  let n := nat_of_ascii c in
  ((9 <=? n)%nat && (n <=? 13)%nat)
  || ((28 <=? n)%nat && (n <=? 32)%nat).

(** [s.lstrip()] *)
Fixpoint lstrip (s : string) : string :=
  match s with
  | EmptyString => EmptyString
  | String c s' => if isspace c then lstrip s' else s
  end.

(** [s.rstrip()] *)
Fixpoint rstrip (s : string) : string :=
  match s with
  | EmptyString => EmptyString
  | String c s' =>
      match rstrip s' with
      | EmptyString => if isspace c then EmptyString else String c EmptyString
      | r => String c r
      end
  end.

(** [s.strip()] *)
Definition strip (s : string) : string := rstrip (lstrip s).

(** [needle in hay] for two strings. *)
Fixpoint contains (needle hay : string) : bool :=
  prefix needle hay
  || match hay with
     | EmptyString => false
     | String _ hay' => contains needle hay'
     end.

(** Truth value of a string: [bool(s)]. *)
Definition truthy (s : string) : bool :=
  match s with EmptyString => false | String _ _ => true end.

(** [sep.join(parts)] *)
Definition join (sep : string) (parts : list string) : string :=
  String.concat sep parts.

(** [str(n)] for an integer. *)
Definition of_int (n : Z) : string := NilZero.string_of_int (Z.to_int n).

(** The double-quote character, for the JSON payload. *)
Definition dquote : string := String (ascii_of_nat 34) EmptyString.

(** An ASCII decimal digit. *)
Definition isdigit (c : ascii) : bool :=
  let n := nat_of_ascii c in (48 <=? n)%nat && (n <=? 57)%nat.

(** Every character of the string is a decimal digit. *)
Fixpoint all_digits (s : string) : bool :=
  match s with
  | EmptyString => true
  | String c s' => isdigit c && all_digits s'
  end.

(** Every character of the string is whitespace. *)
Fixpoint all_space (s : string) : bool :=
  match s with
  | EmptyString => true
  | String c s' => isspace c && all_space s'
  end.

End PyStr.

(* ====================================================================== *)
(** ** The outside world of [init_repo.py] *)
(* ====================================================================== *)

(** The arguments of one [subprocess.run] call. [text=True] is passed at
    every call site and is left implicit. *)
Record Call := mkCall {
  cmd : list string;
  capture_output : bool;
  input : option string
}.

(** What the operating system reports for a finished process. *)
Record RawOutput := mkRaw {
  exit_status : Z;
  out : string;
  err : string
}.

(** [subprocess.CompletedProcess]: [stdout] and [stderr] are [None] unless
    the call captured them. *)
Record CompletedProcess := mkCompleted {
  returncode : Z;
  stdout : option string;
  stderr : option string
}.

(** Console output. Every [console.print] of the script is one constructor;
    the data interpolated into the text is the constructor's argument. *)
Inductive Output :=
| StepHeader (step total : Z) (title : string)   (* Rule "Step s of t  title" *)
| Describe (text : string)
| ShowCommand (cmd_str : string)
| Running
| Done
| Captured (text : string)
| AlreadyExistsSkipping
| Failed
| ErrorPanel (text : string)
| MissingGh
| NotAuthenticatedGitHub
| GitHubAuthenticated
| MissingGcloud
| NotAuthenticatedGoogleCloud
| GoogleCloudAuthenticated (account : string)
| RepositoryExistsSkipping (repo_full : string)
| GitHubRepositoryReady (repo_url : string)
| ReauthenticationNote
| ProjectExistsSkipping (project_id : string)
| WaitingForIam
| InitPanel (country repo project mode : string) (total : Z)
| PhaseRule (phase : string)
| BlankLine
| AllDonePanel (gh_owner gh_repo_name : string).

Inductive Event :=
| EvRun (c : Call) (r : CompletedProcess)   (* subprocess.run *)
| EvWhich (tool : string)                   (* shutil.which *)
| EvSleep (seconds : Z)                     (* time.sleep *)
| EvPrint (o : Output).                     (* console.print *)

Definition Trace := list Event.

(** Number of processes already run in a trace. *)
Fixpoint nruns (tr : Trace) : nat :=
  match tr with
  | [] => O
  | EvRun _ _ :: tr' => S (nruns tr')
  | _ :: tr' => nruns tr'
  end.

(** The external tools.  [proc n c] is what the [n]-th process of the run
    reports when it is started with the arguments [c]; [which tool] is the
    path [shutil.which] finds, if any. *)
Record Env := mkEnv {
  proc : nat -> Call -> RawOutput;
  which : string -> option string
}.

(** Exceptions the script can end with: [typer.Exit(code)], and the
    [AttributeError] of calling [.strip()] on [None]. *)
Inductive Exn :=
| Exit (code : Z)
| AttributeError.

Inductive Res (A : Type) :=
| Ret (a : A)
| Raise (e : Exn).
Arguments Ret {A} a.
Arguments Raise {A} e.

(** Computations: from the trace so far to a result and the extended trace. *)
Definition M (A : Type) : Type := Trace -> Res A * Trace.

Definition ret {A} (a : A) : M A := fun tr => (Ret a, tr).

Definition bind {A B} (m : M A) (k : A -> M B) : M B :=
  fun tr =>
    match m tr with
    | (Ret a, tr') => k a tr'
    | (Raise e, tr') => (Raise e, tr')
    end.

Definition raise {A} (e : Exn) : M A := fun tr => (Raise e, tr).

Definition emit (e : Event) : M unit := fun tr => (Ret tt, tr ++ [e])%list.

Declare Scope py_scope.
Delimit Scope py_scope with py.
Notation "x <- m ;; k" := (bind m (fun x => k))
  (at level 100, m at next level, right associativity) : py_scope.
Notation "m ;; k" := (bind m (fun _ => k))
  (at level 100, right associativity) : py_scope.
Local Open Scope py_scope.

(** [if c: body] with no [else]. *)
Definition when (c : bool) (body : M unit) : M unit :=
  if c then body else ret tt.

(** [for x in xs: body(x)] *)
Fixpoint for_ {A} (xs : list A) (body : A -> M unit) : M unit :=
  match xs with
  | [] => ret tt
  | x :: xs' => body x ;; for_ xs' body
  end.

(** [enumerate(xs)] *)
Fixpoint enumerate_from {A} (i : Z) (xs : list A) : list (Z * A) :=
  match xs with
  | [] => []
  | x :: xs' => (i, x) :: enumerate_from (i + 1) xs'
  end.
Definition enumerate {A} (xs : list A) : list (Z * A) := enumerate_from 0 xs.

(** [len(xs)] *)
Definition len {A} (xs : list A) : Z := Z.of_nat (List.length xs).

Definition console_print (o : Output) : M unit := emit (EvPrint o).

Definition time_sleep (seconds : Z) : M unit := emit (EvSleep seconds).

(** The [CompletedProcess] that [subprocess.run] builds for a finished
    process: the streams are kept only under [capture_output=True]. *)
Definition completed (c : Call) (raw : RawOutput) : CompletedProcess :=
  {| returncode := exit_status raw;
     stdout := if capture_output c then Some (out raw) else None;
     stderr := if capture_output c then Some (err raw) else None |}.

Section Script.

Variable env : Env.

(** [subprocess.run(cmd, capture_output=..., text=True, input=...)] *)
Definition subprocess_run (c : Call) : M CompletedProcess :=
  fun tr =>
    let r := completed c (proc env (nruns tr) c) in
    (Ret r, tr ++ [EvRun c r])%list.

(** [shutil.which(tool)] *)
Definition shutil_which (tool : string) : M (option string) :=
  fun tr => (Ret (which env tool), tr ++ [EvWhich tool])%list.

(** [x.strip()] where [x] may be [None]. *)
Definition strip_of (x : option string) : M string :=
  match x with
  | Some s => ret (PyStr.strip s)
  | None => raise AttributeError
  end.

(* -------------------------------------------------------------------- *)
(** *** Constants (lines 28-31) *)

Definition SHARED_GCP_PROJECT := "goog-rle-assessments".
Definition SHARED_SA_NAME := "github-actions-rle".
Definition SA_NAME := "github-actions".
Definition TEMPLATE_REPO := "RLE-Assessment/TEMPLATE-rle-assessment".

Inductive GcpMode := own | shared.

(** [gcp_mode.value] *)
Definition GcpMode_value (m : GcpMode) : string :=
  match m with own => "own" | shared => "shared" end.

(* -------------------------------------------------------------------- *)
(** *** Helpers (lines 43-124) *)

Definition _step_header (step total : Z) (title : string) : M unit :=
  console_print BlankLine ;;
  console_print (StepHeader step total title).

Definition _describe (text : string) : M unit :=
  console_print (Describe text).

Definition _show_command (cmd : list string) : M unit :=
  let cmd_str := PyStr.join " " cmd in
  console_print (ShowCommand cmd_str).

Definition _is_already_exists_error (stderr : string) : bool :=
  PyStr.contains "ALREADY_EXISTS" stderr || PyStr.contains "already exists" stderr.

(** [x or ""] for an optional string. *)
Definition or_empty (x : option string) : string :=
  match x with
  | Some s => if PyStr.truthy s then s else ""
  | None => ""
  end.

Definition run_command
    (cmd : list string) (step total : Z) (title description : string)
    (capture : bool) (input_data : option string) (skip_if_exists : bool)
  : M CompletedProcess :=
  _step_header step total title ;;
  _describe description ;;
  _show_command cmd ;;
  console_print Running ;;
  result <- subprocess_run {| cmd := cmd;
                              capture_output := capture || skip_if_exists;
                              input := input_data |} ;;
  (if (returncode result =? 0)%Z then
     console_print Done ;;
     (if capture then
        text <- strip_of (stdout result) ;;
        when (PyStr.truthy text) (console_print (Captured text))
      else ret tt)
   else if skip_if_exists && _is_already_exists_error (or_empty (stderr result)) then
     console_print AlreadyExistsSkipping
   else
     console_print Failed ;;
     let stderr := match stderr result with
                   | Some s => if PyStr.truthy s then PyStr.strip s else ""
                   | None => ""
                   end in
     when (PyStr.truthy stderr) (console_print (ErrorPanel stderr)) ;;
     raise (Exit 1)) ;;
  ret result.


(* -------------------------------------------------------------------- *)
(** *** Prerequisites (lines 131-183) *)

Definition is_None {A} (x : option A) : bool :=
  match x with None => true | Some _ => false end.

Definition check_prerequisites (need_gh need_gcloud : bool) : M unit :=
  when need_gh (
    found <- shutil_which "gh" ;;
    when (is_None found) (
      console_print MissingGh ;;
      raise (Exit 1)) ;;
    result <- subprocess_run {| cmd := ["gh"; "auth"; "status"];
                                capture_output := true; input := None |} ;;
    when (negb (returncode result =? 0)%Z) (
      console_print NotAuthenticatedGitHub ;;
      raise (Exit 1)) ;;
    console_print GitHubAuthenticated) ;;
  when need_gcloud (
    found <- shutil_which "gcloud" ;;
    when (is_None found) (
      console_print MissingGcloud ;;
      raise (Exit 1)) ;;
    result <- subprocess_run
                {| cmd := ["gcloud"; "auth"; "list"; "--filter=status:ACTIVE";
                           "--format=value(account)"];
                   capture_output := true; input := None |} ;;
    (* returncode != 0 or not stdout.strip(): [or] evaluates its right
       operand only when the left one is false *)
    not_logged_in <- (if negb (returncode result =? 0)%Z then ret true
                      else text <- strip_of (stdout result) ;;
                           ret (negb (PyStr.truthy text))) ;;
    when not_logged_in (
      console_print NotAuthenticatedGoogleCloud ;;
      raise (Exit 1)) ;;
    account <- strip_of (stdout result) ;;
    console_print (GoogleCloudAuthenticated account)).

(* -------------------------------------------------------------------- *)
(** *** Phase 1: GitHub repository (lines 190-274) *)

(** The line break [\n] of the description texts. *)
Definition LF : string := String (ascii_of_nat 10) EmptyString.

Definition desc_create_repo : string :=
  "Creates a new public GitHub repository from the RLE assessment" ++ LF ++
  "  template. The template includes the Quarto project structure," ++ LF ++
  "  GitHub Actions deploy workflow, country configuration files," ++ LF ++
  "  and all report chapter scaffolding.".

Definition desc_pages_env : string :=
  "Configures the repository's 'github-pages' deployment" ++ LF ++
  "  environment with a custom branch policy. This allows GitHub" ++ LF ++
  "  Actions to deploy rendered content from specific branches" ++ LF ++
  "  (like main) to GitHub Pages, rather than only from protected" ++ LF ++
  "  branches.".

Definition desc_deploy_branch : string :=
  "Adds the 'main' branch to the list of branches allowed to" ++ LF ++
  "  deploy to the github-pages environment. Without this, the" ++ LF ++
  "  GitHub Actions deploy workflow would be blocked from" ++ LF ++
  "  publishing the rendered Quarto site.".

(** [json.dumps] of the fixed deployment-branch policy (lines 246-251). *)
Definition branch_policy_json : string :=
  let q := PyStr.dquote in
  "{" ++ q ++ "deployment_branch_policy" ++ q ++ ": {"
      ++ q ++ "protected_branches" ++ q ++ ": false, "
      ++ q ++ "custom_branch_policies" ++ q ++ ": true}}".

Definition setup_github
    (gh_owner gh_repo_name country_name : string) (step_offset total : Z)
  : M unit :=
  let repo_full := gh_owner ++ "/" ++ gh_repo_name in
  check <- subprocess_run
             {| cmd := ["gh"; "repo"; "view"; repo_full; "--json"; "name"];
                capture_output := true; input := None |} ;;
  (if (returncode check =? 0)%Z then
     _step_header (step_offset + 1) total "Create GitHub Repository" ;;
     console_print (RepositoryExistsSkipping repo_full)
   else
     run_command
       ["gh"; "repo"; "create"; gh_repo_name;
        "--template=" ++ TEMPLATE_REPO;
        "--description=An IUCN Red List of Ecosystems assessment for "
          ++ country_name;
        "--public";
        "--include-all-branches"]
       (step_offset + 1) total
       "Create GitHub Repository"
       desc_create_repo
       false None false ;;
     ret tt) ;;
  run_command
    ["gh"; "api";
     "repos/" ++ gh_owner ++ "/" ++ gh_repo_name ++ "/environments/github-pages";
     "-X"; "PUT";
     "--input"; "-"]
    (step_offset + 2) total
    "Create GitHub Pages Environment"
    desc_pages_env
    false (Some branch_policy_json) false ;;
  run_command
    ["gh"; "api";
     "repos/" ++ gh_owner ++ "/" ++ gh_repo_name
       ++ "/environments/github-pages/deployment-branch-policies";
     "-X"; "POST";
     "-f"; "name=main";
     "-f"; "type=branch"]
    (step_offset + 3) total
    "Add 'main' as Deployment Branch"
    desc_deploy_branch
    false None false ;;
  let repo_url := "https://github.com/" ++ gh_owner ++ "/" ++ gh_repo_name in
  console_print (GitHubRepositoryReady repo_url).


(* -------------------------------------------------------------------- *)
(** *** Phase 2: GCP project, own project (lines 281-514) *)

Definition desc_create_project : string :=
  "Creates a new Google Cloud Platform project that will host" ++ LF ++
  "  the Earth Engine resources and service accounts for this" ++ LF ++
  "  assessment. The project is set as the default for subsequent" ++ LF ++
  "  gcloud commands.".

Definition desc_owner (active_account : string) : string :=
  "Grants the Owner role on the project to " ++ active_account ++ "." ++ LF ++
  "  This ensures the current user has all permissions needed for" ++ LF ++
  "  subsequent steps (enabling APIs, creating workload identity" ++ LF ++
  "  pools, service accounts, and IAM bindings). The command is" ++ LF ++
  "  idempotent — if the role is already granted, this is a no-op.".

Definition apis : list (string * string) :=
  [ ("earthengine.googleapis.com",
     "Earth Engine API — provides access to Google Earth Engine for geospatial analysis.");
    ("iamcredentials.googleapis.com",
     "IAM Service Account Credentials API — required for Workload Identity Federation authentication.");
    ("sts.googleapis.com",
     "Security Token Service API — exchanges GitHub's OIDC token for a GCP federated token.");
    ("cloudresourcemanager.googleapis.com",
     "Cloud Resource Manager API — allows gcloud commands to query project metadata.") ].

Definition desc_pool : string :=
  "Creates a workload identity pool, which is a container for" ++ LF ++
  "  external identity providers. This pool allows GitHub Actions" ++ LF ++
  "  to authenticate to GCP without storing long-lived credentials" ++ LF ++
  "  as secrets.".

Definition desc_provider : string :=
  "Creates an OpenID Connect (OIDC) identity provider within the" ++ LF ++
  "  pool. This configures how GitHub Actions OIDC tokens are" ++ LF ++
  "  validated and mapped to GCP identities — the key piece of" ++ LF ++
  "  Workload Identity Federation that eliminates the need for" ++ LF ++
  "  static service account keys.".

Definition desc_service_account : string :=
  "Creates a dedicated service account that GitHub Actions will" ++ LF ++
  "  impersonate. This account will be granted only the minimum" ++ LF ++
  "  permissions needed: Earth Engine access and API usage.".

Definition desc_role_writer : string :=
  "Grants the Earth Engine Writer role to the service account," ++ LF ++
  "  allowing it to read and write Earth Engine assets (images," ++ LF ++
  "  feature collections, etc.) within this project.".

Definition desc_role_consumer : string :=
  "Grants the Service Usage Consumer role, which allows API" ++ LF ++
  "  calls to be billed to this project. Without this, the" ++ LF ++
  "  service account would not be able to make Earth Engine" ++ LF ++
  "  API requests.".

Definition desc_project_number : string :=
  "Retrieves the GCP project number (a numeric identifier)" ++ LF ++
  "  needed to construct the Workload Identity Federation" ++ LF ++
  "  principal for the IAM binding.".

Definition desc_bind : string :=
  "Creates an IAM binding that allows only this specific GitHub" ++ LF ++
  "  repository to impersonate the service account via Workload" ++ LF ++
  "  Identity Federation. This is the final link connecting" ++ LF ++
  "  GitHub Actions to GCP.".

Definition _setup_gcp_own
    (gcp_project_id gcp_project_name gh_owner gh_repo_name : string)
    (step_offset total : Z)
  : M string :=
  console_print ReauthenticationNote ;;
  check <- subprocess_run
             {| cmd := ["gcloud"; "projects"; "describe"; gcp_project_id;
                        "--format=value(projectId)"];
                capture_output := true; input := None |} ;;
  (* returncode == 0 and stdout.strip() == gcp_project_id: [and] evaluates
     its right operand only when the left one is true *)
  exists_already <- (if (returncode check =? 0)%Z
                     then text <- strip_of (stdout check) ;;
                          ret (text =? gcp_project_id)%string
                     else ret false) ;;
  (if exists_already then
     _step_header (step_offset + 1) total "Create GCP Project" ;;
     console_print (ProjectExistsSkipping gcp_project_id) ;;
     subprocess_run
       {| cmd := ["gcloud"; "config"; "set"; "project"; gcp_project_id];
          capture_output := true; input := None |} ;;
     ret tt
   else
     run_command
       ["gcloud"; "projects"; "create"; gcp_project_id;
        "--name=" ++ gcp_project_name;
        "--set-as-default"]
       (step_offset + 1) total
       "Create GCP Project"
       desc_create_project
       false None false ;;
     ret tt) ;;
  acct_result <- subprocess_run
                   {| cmd := ["gcloud"; "auth"; "list"; "--filter=status:ACTIVE";
                              "--format=value(account)"];
                      capture_output := true; input := None |} ;;
  active_account <- strip_of (stdout acct_result) ;;
  run_command
    ["gcloud"; "projects"; "add-iam-policy-binding"; gcp_project_id;
     "--member=user:" ++ active_account;
     "--role=roles/owner"]
    (step_offset + 2) total
    "Ensure Owner Permissions"
    (desc_owner active_account)
    false None false ;;
  console_print WaitingForIam ;;
  time_sleep 30 ;;
  for_ (enumerate apis) (fun '(i, (api, reason)) =>
    run_command
      ["gcloud"; "services"; "enable"; api; "--project=" ++ gcp_project_id]
      (step_offset + 3) total
      ("Enable API (" ++ PyStr.of_int (i + 1) ++ "/" ++ PyStr.of_int (len apis) ++ ")")
      ("Enables " ++ reason)
      false None false ;;
    ret tt) ;;
  run_command
    ["gcloud"; "iam"; "workload-identity-pools"; "create"; "github-pool";
     "--project=" ++ gcp_project_id;
     "--location=global";
     "--display-name=GitHub Actions Pool"]
    (step_offset + 4) total
    "Create Workload Identity Pool"
    desc_pool
    false None true ;;
  run_command
    ["gcloud"; "iam"; "workload-identity-pools"; "providers"; "create-oidc";
     "github-provider";
     "--project=" ++ gcp_project_id;
     "--location=global";
     "--workload-identity-pool=github-pool";
     "--display-name=GitHub Provider";
     "--attribute-mapping=google.subject=assertion.sub,attribute.actor=assertion.actor,attribute.repository=assertion.repository,attribute.repository_owner=assertion.repository_owner";
     "--attribute-condition=assertion.repository != ''";
     "--issuer-uri=https://token.actions.githubusercontent.com"]
    (step_offset + 5) total
    "Create OIDC Provider"
    desc_provider
    false None true ;;
  run_command
    ["gcloud"; "iam"; "service-accounts"; "create"; SA_NAME;
     "--project=" ++ gcp_project_id;
     "--display-name=GitHub Actions"]
    (step_offset + 6) total
    "Create Service Account"
    desc_service_account
    false None true ;;
  let sa_email := SA_NAME ++ "@" ++ gcp_project_id ++ ".iam.gserviceaccount.com" in
  run_command
    ["gcloud"; "projects"; "add-iam-policy-binding"; gcp_project_id;
     "--member=serviceAccount:" ++ sa_email;
     "--role=roles/earthengine.writer"]
    (step_offset + 7) total
    "Grant IAM Roles (1/2)"
    desc_role_writer
    false None false ;;
  run_command
    ["gcloud"; "projects"; "add-iam-policy-binding"; gcp_project_id;
     "--member=serviceAccount:" ++ sa_email;
     "--role=roles/serviceusage.serviceUsageConsumer"]
    (step_offset + 7) total
    "Grant IAM Roles (2/2)"
    desc_role_consumer
    false None false ;;
  result <- run_command
              ["gcloud"; "projects"; "describe"; gcp_project_id;
               "--format=value(projectNumber)"]
              (step_offset + 8) total
              "Get GCP Project Number"
              desc_project_number
              true None false ;;
  project_number <- strip_of (stdout result) ;;
  let member :=
    "principalSet://iam.googleapis.com/" ++
    "projects/" ++ project_number ++ "/locations/global/" ++
    "workloadIdentityPools/github-pool/" ++
    "attribute.repository/" ++ gh_owner ++ "/" ++ gh_repo_name in
  run_command
    ["gcloud"; "iam"; "service-accounts"; "add-iam-policy-binding";
     sa_email;
     "--project=" ++ gcp_project_id;
     "--role=roles/iam.workloadIdentityUser";
     "--member=" ++ member]
    (step_offset + 8) total
    "Bind Repository to Service Account"
    desc_bind
    false None false ;;
  ret project_number.

(* -------------------------------------------------------------------- *)
(** *** Phase 2: GCP project, shared project (lines 521-602) *)

Definition desc_shared_number : string :=
  "Retrieves the project number for the shared '" ++ SHARED_GCP_PROJECT ++ "'" ++ LF ++
  "  GCP project. This number is needed to construct the Workload" ++ LF ++
  "  Identity Federation principal for the IAM binding.".

Definition desc_shared_bind : string :=
  "Grants the new repository permission to impersonate the shared" ++ LF ++
  "  service account '" ++ SHARED_SA_NAME ++ "' in the '" ++ SHARED_GCP_PROJECT ++ "'" ++ LF ++
  "  project. This allows GitHub Actions in the new repository to" ++ LF ++
  "  authenticate to Earth Engine using the shared infrastructure.".

Definition _setup_gcp_shared
    (gh_owner gh_repo_name : string) (step_offset total : Z)
  : M string :=
  result <- run_command
              ["gcloud"; "projects"; "describe"; SHARED_GCP_PROJECT;
               "--format=value(projectNumber)"]
              (step_offset + 1) total
              "Get Shared Project Number"
              desc_shared_number
              true None false ;;
  project_number <- strip_of (stdout result) ;;
  let sa_email :=
    SHARED_SA_NAME ++ "@" ++ SHARED_GCP_PROJECT ++ ".iam.gserviceaccount.com" in
  let member :=
    "principalSet://iam.googleapis.com/" ++
    "projects/" ++ project_number ++ "/locations/global/" ++
    "workloadIdentityPools/github-pool/" ++
    "attribute.repository/" ++ gh_owner ++ "/" ++ gh_repo_name in
  run_command
    ["gcloud"; "iam"; "service-accounts"; "add-iam-policy-binding";
     sa_email;
     "--project=" ++ SHARED_GCP_PROJECT;
     "--role=roles/iam.workloadIdentityUser";
     "--member=" ++ member]
    (step_offset + 2) total
    "Add IAM Binding to Shared Project"
    desc_shared_bind
    false None false ;;
  ret project_number.

(** [total] is [None] when the caller leaves it out. *)
Definition setup_gcp
    (gcp_project_id gcp_project_name gh_owner gh_repo_name : string)
    (gcp_mode : GcpMode) (step_offset : Z) (total : option Z)
  : M string :=
  match gcp_mode with
  | own =>
      let final_total := match total with Some t => t | None => 7 end in
      _setup_gcp_own gcp_project_id gcp_project_name gh_owner gh_repo_name
                     step_offset final_total
  | shared =>
      let final_total := match total with Some t => t | None => 2 end in
      _setup_gcp_shared gh_owner gh_repo_name step_offset final_total
  end.

(* -------------------------------------------------------------------- *)
(** *** Phase 3: GitHub secrets (lines 609-666) *)

Definition desc_secret_provider : string :=
  "Stores the full Workload Identity Provider resource path as a" ++ LF ++
  "  GitHub repository secret. The GitHub Actions deploy workflow" ++ LF ++
  "  uses this value to request a federated token from GCP," ++ LF ++
  "  enabling keyless authentication.".

Definition desc_secret_account : string :=
  "Stores the service account email as a GitHub repository secret." ++ LF ++
  "  The deploy workflow uses this to specify which service account" ++ LF ++
  "  to impersonate when authenticating to Earth Engine.".

Definition setup_secrets
    (gh_owner gh_repo_name gcp_project_id : string) (gcp_mode : GcpMode)
    (project_number : string) (step_offset total : Z)
  : M unit :=
  let '(wif_provider, sa_email) :=
    match gcp_mode with
    | own =>
        ("projects/" ++ project_number ++ "/locations/global/" ++
         "workloadIdentityPools/github-pool/providers/github-provider",
         SA_NAME ++ "@" ++ gcp_project_id ++ ".iam.gserviceaccount.com")
    | shared =>
        ("projects/" ++ project_number ++ "/locations/global/" ++
         "workloadIdentityPools/github-pool/providers/github-provider",
         SHARED_SA_NAME ++ "@" ++ SHARED_GCP_PROJECT ++ ".iam.gserviceaccount.com")
    end in
  let repo := gh_owner ++ "/" ++ gh_repo_name in
  run_command
    ["gh"; "secret"; "set"; "GCP_WORKLOAD_IDENTITY_PROVIDER";
     "--repo"; repo;
     "--body"; wif_provider]
    (step_offset + 1) total
    "Set GCP_WORKLOAD_IDENTITY_PROVIDER Secret"
    desc_secret_provider
    false None false ;;
  run_command
    ["gh"; "secret"; "set"; "GCP_SERVICE_ACCOUNT";
     "--repo"; repo;
     "--body"; sa_email]
    (step_offset + 2) total
    "Set GCP_SERVICE_ACCOUNT Secret"
    desc_secret_account
    false None false ;;
  ret tt.

(* -------------------------------------------------------------------- *)
(** *** The commands of the Typer application (lines 680-836) *)

Definition cmd_all
    (country_name gcp_project_id gcp_project_name gh_owner gh_repo_name : string)
    (gcp_mode : GcpMode)
  : M unit :=
  let github_steps := 3 in
  let gcp_steps := match gcp_mode with own => 8 | shared => 2 end in
  let secret_steps := 2 in
  let total := github_steps + gcp_steps + secret_steps in
  console_print (InitPanel country_name (gh_owner ++ "/" ++ gh_repo_name)
                           gcp_project_id (GcpMode_value gcp_mode) total) ;;
  check_prerequisites true true ;;
  console_print (PhaseRule "Phase 1: GitHub Repository Setup") ;;
  setup_github gh_owner gh_repo_name country_name 0 total ;;
  console_print (PhaseRule "Phase 2: GCP Project Setup") ;;
  project_number <- setup_gcp gcp_project_id gcp_project_name
                              gh_owner gh_repo_name gcp_mode
                              github_steps (Some total) ;;
  console_print (PhaseRule "Phase 3: GitHub Secrets") ;;
  setup_secrets gh_owner gh_repo_name gcp_project_id gcp_mode project_number
                (github_steps + gcp_steps) total ;;
  console_print BlankLine ;;
  console_print (AllDonePanel gh_owner gh_repo_name).

(** [setup_github] is called with its defaults [step_offset=0, total=3]. *)
Definition github (country_name gh_owner gh_repo_name : string) : M unit :=
  check_prerequisites true false ;;
  setup_github gh_owner gh_repo_name country_name 0 3.

(** [setup_gcp] is called with its defaults [step_offset=0, total=None]. *)
Definition gcp
    (gcp_project_id gcp_project_name gh_owner gh_repo_name : string)
    (gcp_mode : GcpMode)
  : M unit :=
  check_prerequisites false true ;;
  setup_gcp gcp_project_id gcp_project_name gh_owner gh_repo_name gcp_mode
            0 None ;;
  ret tt.

(** [setup_secrets] is called with its defaults [step_offset=0, total=2]. *)
Definition secrets
    (gh_owner gh_repo_name gcp_project_id : string) (gcp_mode : GcpMode)
    (project_number : string)
  : M unit :=
  check_prerequisites true false ;;
  setup_secrets gh_owner gh_repo_name gcp_project_id gcp_mode project_number
                0 2.

End Script.

(** The exit status of the process that ran a command: Typer turns
    [typer.Exit(code)] into that status, a command that returns ends the
    process with status 0, and an uncaught exception ends it with status 1. *)
Definition process_exit_code {A} (r : Res A) : Z :=
  match r with
  | Ret _ => 0
  | Raise (Exit code) => code
  | Raise AttributeError => 1
  end.

(** One invocation of the script: the sub-command and the values of its
    options (lines 680-836). *)
Inductive Invocation :=
| InvokeAll (country_name gcp_project_id gcp_project_name
             gh_owner gh_repo_name : string) (gcp_mode : GcpMode)
| InvokeGithub (country_name gh_owner gh_repo_name : string)
| InvokeGcp (gcp_project_id gcp_project_name gh_owner gh_repo_name : string)
            (gcp_mode : GcpMode)
| InvokeSecrets (gh_owner gh_repo_name gcp_project_id : string)
                (gcp_mode : GcpMode) (project_number : string).

(** [app()] (line 840): Typer dispatches to the function of the sub-command. *)
Definition app (env : Env) (i : Invocation) : M unit :=
  match i with
  | InvokeAll country pid pname owner repo mode =>
      cmd_all env country pid pname owner repo mode
  | InvokeGithub country owner repo => github env country owner repo
  | InvokeGcp pid pname owner repo mode => gcp env pid pname owner repo mode
  | InvokeSecrets owner repo pid mode number =>
      secrets env owner repo pid mode number
  end.

(** The keyword arguments of one [run_command] call. *)
Record Step := mkStep {
  step_cmd : list string;
  step_no : Z;
  step_total : Z;
  step_title : string;
  step_description : string;
  step_capture : bool;
  step_input_data : option string;
  step_skip_if_exists : bool
}.

Definition run_step (env : Env) (s : Step) : M CompletedProcess :=
  run_command env (step_cmd s) (step_no s) (step_total s) (step_title s)
              (step_description s) (step_capture s) (step_input_data s)
              (step_skip_if_exists s).

(** A sequence of steps run one after the other, as the statements of the
    phase functions and the loop of lines 366-373 do. *)
Definition run_steps (env : Env) (steps : list Step) : M unit :=
  for_ steps (fun s => run_step env s ;; ret tt).

(** The steps of the loop over [apis] (lines 366-373). *)
Definition enable_api_steps (gcp_project_id : string) (step_offset total : Z)
  : list Step :=
  map (fun '(i, (api, reason)) =>
         {| step_cmd := ["gcloud"; "services"; "enable"; api;
                         "--project=" ++ gcp_project_id];
            step_no := step_offset + 3;
            step_total := total;
            step_title := "Enable API (" ++ PyStr.of_int (i + 1) ++ "/"
                            ++ PyStr.of_int (len apis) ++ ")";
            step_description := "Enables " ++ reason;
            step_capture := false;
            step_input_data := None;
            step_skip_if_exists := false |})
      (enumerate apis).

(* ====================================================================== *)
(** ** Reading a trace *)
(* ====================================================================== *)

(** The three outcomes of a step, as [run_command] reports them on the
    console: "Done", "Already exists — skipping.", "Failed". *)
Inductive Outcome := success | skipped_already_exists | failed.

Definition outcome_of (e : Event) : option Outcome :=
  match e with
  | EvPrint Done => Some success
  | EvPrint AlreadyExistsSkipping => Some skipped_already_exists
  | EvPrint Failed => Some failed
  | _ => None
  end.

(** The outcomes of the steps of a trace, in order. *)
Fixpoint outcomes (tr : Trace) : list Outcome :=
  match tr with
  | [] => []
  | e :: tr' =>
      match outcome_of e with
      | Some o => o :: outcomes tr'
      | None => outcomes tr'
      end
  end.

(** The command lines of the processes of a trace, in order. *)
Fixpoint commands (tr : Trace) : list (list string) :=
  match tr with
  | [] => []
  | EvRun c _ :: tr' => cmd c :: commands tr'
  | _ :: tr' => commands tr'
  end.

(** The step headers of a trace: (step, total, title). *)
Fixpoint headers (tr : Trace) : list (Z * Z * string) :=
  match tr with
  | [] => []
  | EvPrint (StepHeader s t title) :: tr' => (s, t, title) :: headers tr'
  | _ :: tr' => headers tr'
  end.

(** What the script did to the outside world: processes and sleeps. *)
Inductive Action :=
| ARun (cmd : list string)
| ASleep (seconds : Z).

Fixpoint actions (tr : Trace) : list Action :=
  match tr with
  | [] => []
  | EvRun c _ :: tr' => ARun (cmd c) :: actions tr'
  | EvSleep n :: tr' => ASleep n :: actions tr'
  | _ :: tr' => actions tr'
  end.

(** [needle] occurs in [hay]. *)
Definition occurs_in (needle hay : string) : Prop :=
  exists pre post, hay = pre ++ needle ++ post.

(* ====================================================================== *)
(** ** Predicates on runs *)
(* ====================================================================== *)

(** The console output of [run_command] before the process starts. *)
Definition step_intro (cmd : list string) (step total : Z)
    (title description : string) : Trace :=
  [ EvPrint BlankLine;
    EvPrint (StepHeader step total title);
    EvPrint (Describe description);
    EvPrint (ShowCommand (PyStr.join " " cmd));
    EvPrint Running ].

(** Console output that reports an unrecoverable failure: a failed step, a
    missing tool, a missing login. *)
Definition fatal (o : Output) : bool :=
  match o with
  | Failed | MissingGh | NotAuthenticatedGitHub
  | MissingGcloud | NotAuthenticatedGoogleCloud => true
  | _ => false
  end.

Definition fatal_event (e : Event) : bool :=
  match e with
  | EvPrint o => fatal o
  | _ => false
  end.

(** No unrecoverable failure has been reported in the trace. *)
Definition quiet (tr : Trace) : bool := forallb (fun e => negb (fatal_event e)) tr.

Definition is_error_panel (e : Event) : bool :=
  match e with
  | EvPrint (ErrorPanel _) => true
  | _ => false
  end.

(** The trace of an aborted run: one unrecoverable failure is reported, no
    failure before it, and nothing after it but the panel with the error
    text. *)
Definition aborted (tr : Trace) : Prop :=
  exists pre o post,
    tr = (pre ++ EvPrint o :: post)%list
    /\ quiet pre = true
    /\ fatal o = true
    /\ forallb is_error_panel post = true.

(** [post m Q]: started in a quiet trace, [m] either returns a value
    satisfying [Q] in a quiet trace, or raises [typer.Exit(code=1)] in an
    aborted trace.  In particular it never raises anything else. *)
Definition post {A} (m : M A) (Q : A -> Prop) : Prop :=
  forall tr, quiet tr = true ->
    match m tr with
    | (Ret a, tr') => quiet tr' = true /\ Q a
    | (Raise e, tr') => e = Exit 1 /\ aborted tr'
    end.

Definition any {A} : A -> Prop := fun _ => True.

(** The query for the active Google Cloud account (lines 171-174). *)
Definition gcloud_auth_list : Call :=
  {| cmd := ["gcloud"; "auth"; "list"; "--filter=status:ACTIVE";
             "--format=value(account)"];
     capture_output := true;
     input := None |}.

(** A value that [.strip()] can be called on. *)
Definition has_text (x : option string) : Prop := exists s, x = Some s.

(* ====================================================================== *)
(** ** The digest of a run *)
(* ====================================================================== *)

(** What matters of a trace once the results of the processes and the
    explanatory console output are left out: the step headers, the
    processes started, the sleeps, the outcomes of the steps, and the notes
    that something exists already. *)
Inductive Item :=
| ItHeader (step total : Z) (title : string)
| ItRun (c : Call)
| ItSleep (seconds : Z)
| ItOutcome (o : Outcome)
| ItExists (name : string).

Definition digest_event (e : Event) : list Item :=
  match e with
  | EvRun c _ => [ItRun c]
  | EvSleep n => [ItSleep n]
  | EvPrint (StepHeader s t title) => [ItHeader s t title]
  | EvPrint Done => [ItOutcome success]
  | EvPrint AlreadyExistsSkipping => [ItOutcome skipped_already_exists]
  | EvPrint Failed => [ItOutcome failed]
  | EvPrint (RepositoryExistsSkipping name) => [ItExists name]
  | EvPrint (ProjectExistsSkipping name) => [ItExists name]
  | _ => []
  end.

Definition digest (tr : Trace) : list Item := flat_map digest_event tr.

Definition item_runs (items : list Item) : nat :=
  length (filter (fun i => match i with ItRun _ => true | _ => false end) items).

Definition item_commands (items : list Item) : list (list string) :=
  flat_map (fun i => match i with ItRun c => [cmd c] | _ => [] end) items.

Definition item_actions (items : list Item) : list Action :=
  flat_map (fun i => match i with
                     | ItRun c => [ARun (cmd c)]
                     | ItSleep n => [ASleep n]
                     | _ => []
                     end) items.

Definition item_outcomes (items : list Item) : list Outcome :=
  flat_map (fun i => match i with ItOutcome o => [o] | _ => [] end) items.

Definition item_headers (items : list Item) : list (Z * Z * string) :=
  flat_map (fun i => match i with ItHeader s t title => [(s, t, title)] | _ => [] end)
           items.

(** [m], started after [n] processes, returns [a] and adds [items] to the
    digest of the trace. *)
Definition runs_from (n : nat) {A} (m : M A) (a : A) (items : list Item) : Prop :=
  forall tr, nruns tr = n ->
    exists tr', m tr = (Ret a, tr')
                /\ digest tr' = (digest tr ++ items)%list
                /\ nruns tr' = (item_runs items + n)%nat.

(** [argv] begins with the words [words]. *)
Fixpoint starts_with (words argv : list string) : bool :=
  match words, argv with
  | [], _ => true
  | w :: words', a :: argv' => (w =? a)%string && starts_with words' argv'
  | _ :: _, [] => false
  end.

(** The commands that create the repository and the project: the script
    issues them only after a query has found nothing. *)
Definition proactive_create (argv : list string) : bool :=
  starts_with ["gh"; "repo"; "create"] argv
  || starts_with ["gcloud"; "projects"; "create"] argv.

(** The commands that create the pool, the provider and the service
    account: the script issues them with [skip_if_exists=True]. *)
Definition reactive_create (argv : list string) : bool :=
  starts_with ["gcloud"; "iam"; "workload-identity-pools"; "create"] argv
  || starts_with ["gcloud"; "iam"; "workload-identity-pools"; "providers";
                  "create-oidc"] argv
  || starts_with ["gcloud"; "iam"; "service-accounts"; "create"] argv.

Definition creates (argv : list string) : bool :=
  proactive_create argv || reactive_create argv.

(** The query whether the project exists (lines 302-305). *)
Definition project_exists_query (gcp_project_id : string) : Call :=
  {| cmd := ["gcloud"; "projects"; "describe"; gcp_project_id;
             "--format=value(projectId)"];
     capture_output := true;
     input := None |}.

(** The test of line 306 on the answer to that query. *)
Definition project_exists (raw : RawOutput) (gcp_project_id : string) : bool :=
  (exit_status raw =? 0)%Z && (PyStr.strip (out raw) =? gcp_project_id)%string.

(** The query for the number of a project (lines 471-485, 532-546). *)
Definition project_number_query (gcp_project_id : string) : Call :=
  {| cmd := ["gcloud"; "projects"; "describe"; gcp_project_id;
             "--format=value(projectNumber)"];
     capture_output := true;
     input := None |}.

(** A step as it shows in the digest. *)
Definition step_items (step total : Z) (title : string) (argv : list string)
    (captures : bool) (input_data : option string) (o : Outcome) : list Item :=
  [ ItHeader step total title;
    ItRun {| cmd := argv; capture_output := captures; input := input_data |};
    ItOutcome o ].

(** The digest of [_setup_gcp_own] when no step fails.  [first] is what
    happens for the project itself, [o] the outcome of the three creations
    under [skip_if_exists], [account] the active account and [number] the
    project number. *)
Definition own_items (first : list Item) (o : Outcome)
    (pid gh_owner gh_repo_name account number : string) (off total : Z)
  : list Item :=
  let sa_email := "github-actions@" ++ pid ++ ".iam.gserviceaccount.com" in
  List.concat [
   [ItRun (project_exists_query pid)];
   first;
   [ItRun gcloud_auth_list];
   step_items (off + 2) total "Ensure Owner Permissions"
        ["gcloud"; "projects"; "add-iam-policy-binding"; pid;
         "--member=user:" ++ account; "--role=roles/owner"]
        false None success;
   [ItSleep 30];
   step_items (off + 3) total "Enable API (1/4)"
        ["gcloud"; "services"; "enable"; "earthengine.googleapis.com";
         "--project=" ++ pid]
        false None success;
   step_items (off + 3) total "Enable API (2/4)"
        ["gcloud"; "services"; "enable"; "iamcredentials.googleapis.com";
         "--project=" ++ pid]
        false None success;
   step_items (off + 3) total "Enable API (3/4)"
        ["gcloud"; "services"; "enable"; "sts.googleapis.com";
         "--project=" ++ pid]
        false None success;
   step_items (off + 3) total "Enable API (4/4)"
        ["gcloud"; "services"; "enable"; "cloudresourcemanager.googleapis.com";
         "--project=" ++ pid]
        false None success;
   step_items (off + 4) total "Create Workload Identity Pool"
        ["gcloud"; "iam"; "workload-identity-pools"; "create"; "github-pool";
         "--project=" ++ pid; "--location=global";
         "--display-name=GitHub Actions Pool"]
        true None o;
   step_items (off + 5) total "Create OIDC Provider"
        ["gcloud"; "iam"; "workload-identity-pools"; "providers"; "create-oidc";
         "github-provider"; "--project=" ++ pid; "--location=global";
         "--workload-identity-pool=github-pool";
         "--display-name=GitHub Provider";
         "--attribute-mapping=google.subject=assertion.sub,attribute.actor=assertion.actor,attribute.repository=assertion.repository,attribute.repository_owner=assertion.repository_owner";
         "--attribute-condition=assertion.repository != ''";
         "--issuer-uri=https://token.actions.githubusercontent.com"]
        true None o;
   step_items (off + 6) total "Create Service Account"
        ["gcloud"; "iam"; "service-accounts"; "create"; "github-actions";
         "--project=" ++ pid; "--display-name=GitHub Actions"]
        true None o;
   step_items (off + 7) total "Grant IAM Roles (1/2)"
        ["gcloud"; "projects"; "add-iam-policy-binding"; pid;
         "--member=serviceAccount:" ++ sa_email;
         "--role=roles/earthengine.writer"]
        false None success;
   step_items (off + 7) total "Grant IAM Roles (2/2)"
        ["gcloud"; "projects"; "add-iam-policy-binding"; pid;
         "--member=serviceAccount:" ++ sa_email;
         "--role=roles/serviceusage.serviceUsageConsumer"]
        false None success;
   step_items (off + 8) total "Get GCP Project Number"
        (cmd (project_number_query pid))
        true None success;
   step_items (off + 8) total "Bind Repository to Service Account"
        ["gcloud"; "iam"; "service-accounts"; "add-iam-policy-binding";
         sa_email; "--project=" ++ pid;
         "--role=roles/iam.workloadIdentityUser";
         "--member=principalSet://iam.googleapis.com/projects/" ++ number
           ++ "/locations/global/workloadIdentityPools/github-pool/attribute.repository/"
           ++ gh_owner ++ "/" ++ gh_repo_name]
        false None success ].

(** The project is created. *)
Definition project_created (pid pname : string) (off total : Z) : list Item :=
  step_items (off + 1) total "Create GCP Project"
    ["gcloud"; "projects"; "create"; pid; "--name=" ++ pname; "--set-as-default"]
    false None success.

(** The project is found and made the default. *)
Definition project_found (pid : string) (off total : Z) : list Item :=
  [ ItHeader (off + 1) total "Create GCP Project";
    ItExists pid;
    ItRun {| cmd := ["gcloud"; "config"; "set"; "project"; pid];
             capture_output := true; input := None |} ].

(** The digest of [check_prerequisites(True, True)] when both tools are
    installed and logged in. *)
Definition prerequisites_items : list Item :=
  [ ItRun {| cmd := ["gh"; "auth"; "status"]; capture_output := true;
             input := None |};
    ItRun gcloud_auth_list ].

(** The query whether the repository exists (lines 202-205). *)
Definition repo_view_query (gh_owner gh_repo_name : string) : Call :=
  {| cmd := ["gh"; "repo"; "view"; gh_owner ++ "/" ++ gh_repo_name;
             "--json"; "name"];
     capture_output := true;
     input := None |}.

(** The digest of [setup_github] when no step fails; [first] is what
    happens for the repository itself. *)
Definition github_items (first : list Item) (gh_owner gh_repo_name : string)
    (off total : Z) : list Item :=
  List.concat [
   [ItRun (repo_view_query gh_owner gh_repo_name)];
   first;
   step_items (off + 2) total "Create GitHub Pages Environment"
        ["gh"; "api";
         "repos/" ++ gh_owner ++ "/" ++ gh_repo_name ++ "/environments/github-pages";
         "-X"; "PUT"; "--input"; "-"]
        false (Some branch_policy_json) success;
   step_items (off + 3) total "Add 'main' as Deployment Branch"
        ["gh"; "api";
         "repos/" ++ gh_owner ++ "/" ++ gh_repo_name
           ++ "/environments/github-pages/deployment-branch-policies";
         "-X"; "POST"; "-f"; "name=main"; "-f"; "type=branch"]
        false None success ].

(** The repository is created. *)
Definition repo_created (gh_repo_name country_name : string) (off total : Z)
  : list Item :=
  step_items (off + 1) total "Create GitHub Repository"
    ["gh"; "repo"; "create"; gh_repo_name;
     "--template=RLE-Assessment/TEMPLATE-rle-assessment";
     "--description=An IUCN Red List of Ecosystems assessment for " ++ country_name;
     "--public"; "--include-all-branches"]
    false None success.

(** The repository is found. *)
Definition repo_found (gh_owner gh_repo_name : string) (off total : Z)
  : list Item :=
  [ ItHeader (off + 1) total "Create GitHub Repository";
    ItExists (gh_owner ++ "/" ++ gh_repo_name) ].

(** The digest of [setup_secrets] in mode [own] when no step fails. *)
Definition secrets_own_items (gh_owner gh_repo_name pid number : string)
    (off total : Z) : list Item :=
  List.concat [
   step_items (off + 1) total "Set GCP_WORKLOAD_IDENTITY_PROVIDER Secret"
     ["gh"; "secret"; "set"; "GCP_WORKLOAD_IDENTITY_PROVIDER";
      "--repo"; gh_owner ++ "/" ++ gh_repo_name;
      "--body"; "projects/" ++ number
        ++ "/locations/global/workloadIdentityPools/github-pool/providers/github-provider"]
     false None success;
   step_items (off + 2) total "Set GCP_SERVICE_ACCOUNT Secret"
     ["gh"; "secret"; "set"; "GCP_SERVICE_ACCOUNT";
      "--repo"; gh_owner ++ "/" ++ gh_repo_name;
      "--body"; "github-actions@" ++ pid ++ ".iam.gserviceaccount.com"]
     false None success ].

(** The steps and the sleeps of a digest, by title. *)
Inductive Milestone :=
| MStep (title : string)
| MSleep (seconds : Z).

Definition milestones (items : list Item) : list Milestone :=
  flat_map (fun i => match i with
                     | ItHeader _ _ title => [MStep title]
                     | ItSleep n => [MSleep n]
                     | _ => []
                     end) items.

(** The commands that only ask, or only change the local configuration. *)
Definition queries (argv : list string) : bool :=
  starts_with ["gh"; "auth"] argv
  || starts_with ["gh"; "repo"; "view"] argv
  || starts_with ["gcloud"; "auth"] argv
  || starts_with ["gcloud"; "config"] argv
  || starts_with ["gcloud"; "projects"; "describe"] argv.

(** The commands of a digest that configure the target: neither a
    creation nor a query. *)
Definition settings (items : list Item) : list (list string) :=
  filter (fun argv => negb (creates argv) && negb (queries argv))
         (item_commands items).

(** A target on which nothing exists yet, seen from the [all] command: the
    tools are installed, the query for the active account (the process
    number 1) names one, the query for the repository (the process number 2)
    fails, the query for the project (the process number 6)
    does not report it, and every other process exits with status 0. *)
Definition fresh_target (env : Env) (gh_owner gh_repo_name pid : string) : Prop :=
  (exists path, which env "gh" = Some path)
  /\ (exists path, which env "gcloud" = Some path)
  /\ PyStr.truthy (PyStr.strip (out (proc env 1 gcloud_auth_list))) = true
  /\ exit_status (proc env 2 (repo_view_query gh_owner gh_repo_name)) <> 0
  /\ project_exists (proc env 6 (project_exists_query pid)) pid = false
  /\ (forall k c, k <> 2%nat -> k <> 6%nat -> exit_status (proc env k c) = 0).

(** A target that is provisioned already: the tools are installed and logged
    in, the query for the project reports it, every creation command fails
    with an "already exists" error text, and every other process (the query
    for the repository among them) exits with status 0. *)
Definition provisioned (env : Env) (pid : string) : Prop :=
  (exists path, which env "gh" = Some path)
  /\ (exists path, which env "gcloud" = Some path)
  /\ (forall k, PyStr.truthy (PyStr.strip (out (proc env k gcloud_auth_list))) = true)
  /\ (forall k, PyStr.strip (out (proc env k (project_exists_query pid))) = pid)
  /\ (forall k c, creates (cmd c) = true ->
        exit_status (proc env k c) <> 0
        /\ _is_already_exists_error (err (proc env k c)) = true)
  /\ (forall k c, creates (cmd c) = false -> exit_status (proc env k c) = 0).

(* ====================================================================== *)
(** ** Policies on what a run may do *)
(* ====================================================================== *)

(** A policy says which processes may be started, which step headers may be
    printed and how long a sleep may be; all other console output is free. *)
Record Policy := mkPolicy {
  allow_run : Call -> bool;
  allow_header : Z -> Z -> string -> bool;
  allow_sleep : Z -> bool
}.

Definition permits (p : Policy) (e : Event) : bool :=
  match e with
  | EvRun c _ => allow_run p c
  | EvSleep n => allow_sleep p n
  | EvPrint (StepHeader s t title) => allow_header p s t title
  | _ => true
  end.

(** [within p m Q]: from every trace, [m] only appends events that [p]
    permits, and it either returns a value satisfying [Q] or raises
    [typer.Exit(code=1)]. *)
Definition within (p : Policy) {A} (m : M A) (Q : A -> Prop) : Prop :=
  forall tr, exists new,
    snd (m tr) = (tr ++ new)%list
    /\ forallb (permits p) new = true
    /\ match fst (m tr) with
       | Ret a => Q a
       | Raise e => e = Exit 1
       end.

(** A string that [strip] leaves as it is. *)
Definition trimmed (s : string) : Prop := PyStr.strip s = s.

(** The policy that permits everything. *)
Definition anything : Policy :=
  {| allow_run := fun _ => true;
     allow_header := fun _ _ _ => true;
     allow_sleep := fun _ => true |}.

(** The query for the GitHub login (lines 147-150). *)
Definition gh_auth_status : Call :=
  {| cmd := ["gh"; "auth"; "status"]; capture_output := true; input := None |}.

(** The two command lines are the same, word for word. *)
Definition same_argv (a b : list string) : bool :=
  starts_with a b && starts_with b a.

(** Only the two login queries may run; no step, no sleep. *)
Definition login_queries_only : Policy :=
  {| allow_run := fun c => same_argv (cmd c) (cmd gh_auth_status)
                           || same_argv (cmd c) (cmd gcloud_auth_list);
     allow_header := fun _ _ _ => false;
     allow_sleep := fun _ => false |}.

(** No creation command may run. *)
Definition no_creation : Policy :=
  {| allow_run := fun c => negb (creates (cmd c));
     allow_header := fun _ _ _ => true;
     allow_sleep := fun _ => true |}.

(** Only [gcloud] may run, no creation command, and no sleep. *)
Definition gcloud_without_creation : Policy :=
  {| allow_run := fun c => starts_with ["gcloud"] (cmd c) && negb (creates (cmd c));
     allow_header := fun _ _ _ => true;
     allow_sleep := fun _ => false |}.

(** The tools a sub-command checks in [check_prerequisites] before it does
    anything else (lines 724, 779, 807, 835). *)
Definition uses_tool (inv : Invocation) (argv : list string) : bool :=
  match inv with
  | InvokeAll _ _ _ _ _ _ => starts_with ["gh"] argv || starts_with ["gcloud"] argv
  | InvokeGithub _ _ _ => starts_with ["gh"] argv
  | InvokeGcp _ _ _ _ _ => starts_with ["gcloud"] argv
  | InvokeSecrets _ _ _ _ _ => starts_with ["gh"] argv
  end.

(** A process gets no standard input, except the [gh api] call that is sent
    the deployment-branch policy. *)
Definition stdin_ok (c : Call) : bool :=
  match input c with
  | None => true
  | Some data => (data =? branch_policy_json)%string
                 && starts_with ["gh"; "api"] (cmd c)
  end.

(** The sub-commands that provision an own project. *)
Definition may_sleep (inv : Invocation) : bool :=
  match inv with
  | InvokeAll _ _ _ _ _ own => true
  | InvokeGcp _ _ _ _ own => true
  | _ => false
  end.

(** The total that the headers of a sub-command show. *)
Definition shown_total (inv : Invocation) : Z :=
  match inv with
  | InvokeAll _ _ _ _ _ own => 13
  | InvokeAll _ _ _ _ _ shared => 7
  | InvokeGithub _ _ _ => 3
  | InvokeGcp _ _ _ _ own => 7
  | InvokeGcp _ _ _ _ shared => 2
  | InvokeSecrets _ _ _ _ _ => 2
  end.

(** The highest step number a sub-command can show. *)
Definition last_step (inv : Invocation) : Z :=
  match inv with
  | InvokeGcp _ _ _ _ own => 8
  | _ => shown_total inv
  end.

(** What an invocation may do: run the tools it checked, with standard
    input for the policy call only; number its steps from 1 to [last_step]
    out of [shown_total]; sleep 30 seconds, when it provisions an own
    project. *)
Definition house_rules (inv : Invocation) : Policy :=
  {| allow_run := fun c => uses_tool inv (cmd c) && stdin_ok c;
     allow_header := fun s t _ =>
       (t =? shown_total inv)%Z && (1 <=? s)%Z && (s <=? last_step inv)%Z;
     allow_sleep := fun n => may_sleep inv && (n =? 30)%Z |}.

(** The outcome of a creation under [skip_if_exists] that does not fail. *)
Definition creation_outcome (raw : RawOutput) : Outcome :=
  if (exit_status raw =? 0)%Z then success else skipped_already_exists.

(* ====================================================================== *)
(** ** The second script: [upload_demo_asset.py] *)
(* ====================================================================== *)

Module UploadDemoAsset.

(** [ee.Feature(ee.Geometry.Polygon(rings), properties)]; the coordinate
    literals are kept as exact rationals. *)
Record Feature := mkFeature {
  polygon : list (list (Q * Q));
  properties : list (string * string)
}.

(** [task.status()]: the state, and the error message if there is one. *)
Record Status := mkStatus {
  state : string;
  error_message : option string
}.

(** The Earth Engine service, as the script sees it: whether a lookup or
    a creation raises [ee.EEException], what the [n]-th call of
    [task.active()] answers, and the final status of the task. *)
Record EarthEngine := mkEarthEngine {
  getAsset_raises : string -> bool;
  createAsset_raises : string -> bool;
  active_at : nat -> bool;
  final_status : Status
}.

Inductive Event :=
| AuthDefault (scopes : list string)               (* google.auth.default *)
| Initialize (project : string)                    (* ee.Initialize *)
| GetAsset (asset_id : string)                     (* ee.data.getAsset *)
| CreateAsset (type path : string)                 (* ee.data.createAsset *)
| ExportTableToAsset (collection : list Feature)
                     (description assetId : string) (* Export.table.toAsset *)
| TaskStart                                        (* task.start *)
| TaskActive (answer : bool)                       (* task.active *)
| Sleep (seconds : Z)                              (* time.sleep *)
| TaskStatus                                       (* task.status *)
| Print (text : string)                            (* print *)
| ParserError (message : string).                  (* parser.error *)

Definition Trace := list Event.

(** Number of [task.active()] calls already made. *)
Fixpoint npolls (tr : Trace) : nat :=
  match tr with
  | [] => O
  | TaskActive _ :: tr' => S (npolls tr')
  | _ :: tr' => npolls tr'
  end.

Inductive Exn :=
| EEException
| SystemExit (code : Z).

(** A run returns, raises, or is still polling when the fuel is spent. *)
Inductive Res (A : Type) :=
| Ret (a : A)
| Raise (e : Exn)
| StillPolling.
Arguments Ret {A} a.
Arguments Raise {A} e.
Arguments StillPolling {A}.

Definition M (A : Type) : Type := Trace -> Res A * Trace.

Definition ret {A} (a : A) : M A := fun tr => (Ret a, tr).

Definition bind {A B} (m : M A) (k : A -> M B) : M B :=
  fun tr =>
    match m tr with
    | (Ret a, tr') => k a tr'
    | (Raise e, tr') => (Raise e, tr')
    | (StillPolling, tr') => (StillPolling, tr')
    end.

Definition raise {A} (e : Exn) : M A := fun tr => (Raise e, tr).

Definition emit (e : Event) : M unit := fun tr => (Ret tt, tr ++ [e])%list.

(** [try: body / except ee.EEException: handler] *)
Definition try_except_EEException {A} (body handler : M A) : M A :=
  fun tr =>
    match body tr with
    | (Raise EEException, tr') => handler tr'
    | other => other
    end.

Notation "x <- m ;; k" := (bind m (fun x => k))
  (at level 100, m at next level, right associativity).
Notation "m ;; k" := (bind m (fun _ => k))
  (at level 100, right associativity).

Section Script.

Variable ee : EarthEngine.

Definition google_auth_default (scopes : list string) : M unit :=
  emit (AuthDefault scopes).

Definition ee_Initialize (project : string) : M unit :=
  emit (Initialize project).

Definition ee_data_getAsset (asset_id : string) : M unit :=
  emit (GetAsset asset_id) ;;
  if getAsset_raises ee asset_id then raise EEException else ret tt.

Definition ee_data_createAsset (type path : string) : M unit :=
  emit (CreateAsset type path) ;;
  if createAsset_raises ee path then raise EEException else ret tt.

Definition task_active : M bool :=
  fun tr =>
    let answer := active_at ee (npolls tr) in
    (Ret answer, tr ++ [TaskActive answer])%list.

Definition task_status : M Status :=
  emit TaskStatus ;; ret (final_status ee).

(** [while task.active(): time.sleep(2)], with the number of rounds
    bounded by [fuel]. *)
Fixpoint poll (fuel : nat) : M unit :=
  match fuel with
  | O => fun tr => (StillPolling, tr)
  | S fuel' =>
      busy <- task_active ;;
      if busy then emit (Sleep 2) ;; poll fuel' else ret tt
  end.

Definition land : Feature :=
  {| polygon := [[ (-(5#1000), -(5#1000)); (0, -(5#1000));
                   (0, 5#1000); (-(5#1000), 5#1000) ]]%Q;
     properties := [ ("EFG1", "T1.1");
                     ("Glob_Typol", "T1.1_NullIsland_forest_D01");
                     ("ECO_NAME", "Null Island Tropical Forest");
                     ("COD", "D01") ] |}.

Definition water : Feature :=
  {| polygon := [[ (0, -(5#1000)); (5#1000, -(5#1000));
                   (5#1000, 5#1000); (0, 5#1000) ]]%Q;
     properties := [ ("EFG1", "M1.1");
                     ("Glob_Typol", "M1.1_NullIsland_marine_shelf_D02");
                     ("ECO_NAME", "Null Island Marine Shelf");
                     ("COD", "D02") ] |}.

(** Lines 11-77.  The signal for the early [return] of line 24 is the
    boolean computed by the first [try]. *)
Definition upload_demo_asset (fuel : nat) (project : string) : M unit :=
  let asset_id := "projects/" ++ project ++ "/assets/demo/null_island_ecosystems" in
  google_auth_default ["https://www.googleapis.com/auth/earthengine"] ;;
  ee_Initialize project ;;
  found <- try_except_EEException
             (ee_data_getAsset asset_id ;;
              emit (Print ("Asset already exists: " ++ asset_id)) ;;
              ret true)
             (ret false) ;;
  if found : bool then ret tt
  else
    let folder_id := "projects/" ++ project ++ "/assets/demo" in
    try_except_EEException
      (ee_data_createAsset "FOLDER" folder_id)
      (ret tt) ;;
    let fc := [land; water] in
    emit (ExportTableToAsset fc "null_island_ecosystems" asset_id) ;;
    emit TaskStart ;;
    emit (Print "Uploading demo asset…") ;;
    poll fuel ;;
    status <- task_status ;;
    if (state status =? "COMPLETED")%string then
      emit (Print ("Done: " ++ asset_id))
    else
      emit (Print ("Failed: " ++ match error_message status with
                                  | Some m => m
                                  | None => "unknown error"
                                  end)).

(** Truth value of an optional string: [None] and [""] are false. *)
Definition truthy (x : option string) : bool :=
  match x with
  | Some s => PyStr.truthy s
  | None => false
  end.

(** Lines 80-90.  [cli_project] is the value of [--project] when the
    option is given, [environ_project] the value of the environment
    variable [GOOGLE_CLOUD_PROJECT] when it is set. *)
Definition main (fuel : nat) (cli_project environ_project : option string)
  : M unit :=
  let args_project := match cli_project with
                      | Some p => Some p
                      | None => environ_project
                      end in
  (if negb (truthy args_project) then
     emit (ParserError "Provide --project or set GOOGLE_CLOUD_PROJECT") ;;
     raise (SystemExit 2)
   else ret tt) ;;
  match args_project with
  | Some project => upload_demo_asset fuel project
  | None => ret tt
  end.

End Script.

(** The trace has started an export task. *)
Definition uploads (tr : Trace) : bool :=
  existsb (fun e => match e with
                    | ExportTableToAsset _ _ _ | TaskStart => true
                    | _ => false
                    end) tr.

(** The trace has changed something in the asset store. *)
Definition mutates (tr : Trace) : bool :=
  existsb (fun e => match e with
                    | CreateAsset _ _ | ExportTableToAsset _ _ _ | TaskStart => true
                    | _ => false
                    end) tr.

(** The polling rounds of a task that stays active [n] times. *)
Fixpoint polling_rounds (n : nat) : Trace :=
  match n with
  | O => []
  | S n' => TaskActive true :: Sleep 2 :: polling_rounds n'
  end.

(** The task is active at the polls [k .. k+n-1] and not at [k+n]. *)
Definition finishes_after (ee : EarthEngine) (k n : nat) : Prop :=
  (forall i, (i < n)%nat -> active_at ee (k + i) = true)
  /\ active_at ee (k + n) = false.

End UploadDemoAsset.

(* ====================================================================== *)
(** ** Sample environments *)
(* ====================================================================== *)

Module Sample.

(** Every tool is installed. *)
Definition installed (tool : string) : option string :=
  Some ("/usr/bin/" ++ tool).

(** Every process exits with status 0 and prints [text]. *)
Definition all_ok (text : string) : Env :=
  {| proc := fun _ _ => mkRaw 0 text ""; which := installed |}.

(** Every process exits with status 1 and the error text [text]. *)
Definition all_fail (text : string) : Env :=
  {| proc := fun _ _ => mkRaw 1 "" text; which := installed |}.

(** The processes numbered in [bad] exit with status 1 and the error text
    [text]; the others exit with status 0 and print [good]. *)
Definition fail_at (bad : list nat) (text good : string) : Env :=
  {| proc := fun n _ => if existsb (Nat.eqb n) bad
                        then mkRaw 1 "" text else mkRaw 0 good "";
     which := installed |}.

(** The two lists of words are the same. *)
Definition same_words (a b : list string) : bool :=
  starts_with a b && starts_with b a.

(** What a successful [gcloud] or [gh] process prints: the project id for
    the query whether the project exists, a project number for the query
    for it, an account name otherwise. *)
Definition answer (pid : string) (c : Call) : string :=
  if same_words (cmd c) (cmd (project_exists_query pid)) then pid ++ LF
  else if same_words (cmd c) (cmd (project_number_query pid)) then "123456789" ++ LF
  else "user@example.com" ++ LF.

(** A provisioned target: creations fail with ALREADY_EXISTS. *)
Definition provisioned_env (pid : string) : Env :=
  {| proc := fun _ c =>
               if creates (cmd c)
               then mkRaw 1 "" "ERROR: ALREADY_EXISTS: the resource already exists"
               else mkRaw 0 (answer pid c) "";
     which := installed |}.

(** A target on which the pool, the provider and the service account
    exist already, and nothing else is known to: their creations fail with
    ALREADY_EXISTS, every other process exits with status 0. *)
Definition partly_provisioned_env (pid : string) : Env :=
  {| proc := fun _ c =>
               if reactive_create (cmd c)
               then mkRaw 1 "" "ERROR: ALREADY_EXISTS: the resource already exists"
               else mkRaw 0 (answer pid c) "";
     which := installed |}.

(** A fresh target, under the [all] command: the processes number 2 and 6
    are the two queries that find nothing. *)
Definition fresh_env (pid : string) : Env :=
  {| proc := fun k c =>
               if (k =? 2)%nat || (k =? 6)%nat
               then mkRaw 1 "" "ERROR: not found"
               else mkRaw 0 (answer pid c) "";
     which := installed |}.

(** An asset store that holds the demonstration asset already. *)
Definition store_with_asset : UploadDemoAsset.EarthEngine :=
  {| UploadDemoAsset.getAsset_raises := fun _ => false;
     UploadDemoAsset.createAsset_raises := fun _ => true;
     UploadDemoAsset.active_at := fun _ => false;
     UploadDemoAsset.final_status :=
       {| UploadDemoAsset.state := "COMPLETED";
          UploadDemoAsset.error_message := None |} |}.

(** An empty asset store whose export task is active for [rounds] polls
    and then completes. *)
Definition empty_store (rounds : nat) : UploadDemoAsset.EarthEngine :=
  {| UploadDemoAsset.getAsset_raises := fun _ => true;
     UploadDemoAsset.createAsset_raises := fun _ => false;
     UploadDemoAsset.active_at := fun i => (i <? rounds)%nat;
     UploadDemoAsset.final_status :=
       {| UploadDemoAsset.state := "COMPLETED";
          UploadDemoAsset.error_message := None |} |}.

Definition step_of (argv : list string) (n : Z) : Step :=
  {| step_cmd := argv; step_no := n; step_total := 3;
     step_title := "Step"; step_description := "A step";
     step_capture := false; step_input_data := None;
     step_skip_if_exists := false |}.

Definition three_steps : list Step :=
  [ step_of ["first"] 1; step_of ["second"] 2; step_of ["third"] 3 ].

End Sample.

(* ====================================================================== *)
(** ** Facts about the string operations *)
(* ====================================================================== *)

Lemma prefix_true_iff (n h : string) :
  prefix n h = true <-> exists post, h = n ++ post.
Proof.
  revert h. induction n as [|c n IH]; intros h.
  - split; [intros _; exists h; reflexivity | now destruct h].
  - destruct h as [|d h]; simpl.
    + split; [discriminate | intros [post H]; discriminate].
    + destruct (ascii_dec c d) as [->|Hne].
      * rewrite IH. split; intros [post H]; exists post.
        -- now rewrite H.
        -- now inversion H.
      * split; [discriminate | intros [post H]; inversion H; congruence].
Qed.

Lemma contains_true_iff (n h : string) :
  PyStr.contains n h = true <-> occurs_in n h.
Proof.
  unfold occurs_in. induction h as [|d h IH]; cbn [PyStr.contains].
  - rewrite orb_false_r, prefix_true_iff. split.
    + intros [post H]. exists "", post. exact H.
    + intros [pre [post H]]. destruct pre; simpl in H.
      * exists post. exact H.
      * discriminate.
  - rewrite orb_true_iff, IH, prefix_true_iff. split.
    + intros [[post H] | [pre [post H]]].
      * exists "", post. exact H.
      * exists (String d pre), post. simpl. now rewrite H.
    + intros [pre [post H]]. destruct pre as [|e pre]; simpl in H.
      * left. exists post. exact H.
      * right. inversion H. exists pre, post. reflexivity.
Qed.

Lemma is_already_exists_error_iff (s : string) :
  _is_already_exists_error s = true
  <-> occurs_in "ALREADY_EXISTS" s \/ occurs_in "already exists" s.
Proof.
  unfold _is_already_exists_error.
  now rewrite orb_true_iff, !contains_true_iff.
Qed.

Lemma or_empty_Some (s : string) : or_empty (Some s) = s.
Proof. destruct s; reflexivity. Qed.

Lemma lstrip_all_space (s : string) :
  PyStr.all_space s = true -> PyStr.lstrip s = "".
Proof.
  induction s as [|c s IH]; simpl; [reflexivity|].
  destruct (PyStr.isspace c); simpl; [exact IH | discriminate].
Qed.

Lemma rstrip_empty_iff (s : string) :
  PyStr.rstrip s = "" <-> PyStr.all_space s = true.
Proof.
  induction s as [|c s IH]; simpl; [tauto|].
  destruct (PyStr.rstrip s) eqn:R.
  - destruct (PyStr.isspace c); simpl.
    + rewrite <- IH. tauto.
    + split; discriminate.
  - split; [discriminate|].
    rewrite andb_true_iff. intros [_ H]. apply IH in H. discriminate.
Qed.

Lemma lstrip_all_space_iff (s : string) :
  PyStr.all_space (PyStr.lstrip s) = true <-> PyStr.all_space s = true.
Proof.
  induction s as [|c s IH]; simpl; [tauto|].
  destruct (PyStr.isspace c) eqn:C; simpl.
  - exact IH.
  - rewrite C. simpl. tauto.
Qed.

(** [s.strip()] is empty exactly when [s] is whitespace only. *)
Lemma strip_empty_iff (s : string) :
  PyStr.strip s = "" <-> PyStr.all_space s = true.
Proof.
  unfold PyStr.strip. now rewrite rstrip_empty_iff, lstrip_all_space_iff.
Qed.

(* ====================================================================== *)
(** ** Facts about traces *)
(* ====================================================================== *)

Lemma nruns_app (a b : Trace) : nruns (a ++ b)%list = (nruns a + nruns b)%nat.
Proof.
  induction a as [|e a IH]; simpl; [reflexivity|].
  destruct e; simpl; now rewrite IH.
Qed.

Lemma outcomes_app (a b : Trace) :
  outcomes (a ++ b)%list = (outcomes a ++ outcomes b)%list.
Proof.
  induction a as [|e a IH]; simpl; [reflexivity|].
  destruct (outcome_of e); simpl; now rewrite IH.
Qed.

Lemma commands_app (a b : Trace) :
  commands (a ++ b)%list = (commands a ++ commands b)%list.
Proof.
  induction a as [|e a IH]; simpl; [reflexivity|].
  destruct e; simpl; now rewrite IH.
Qed.

Lemma actions_app (a b : Trace) :
  actions (a ++ b)%list = (actions a ++ actions b)%list.
Proof.
  induction a as [|e a IH]; simpl; [reflexivity|].
  destruct e; simpl; now rewrite IH.
Qed.

Lemma headers_app (a b : Trace) :
  headers (a ++ b)%list = (headers a ++ headers b)%list.
Proof.
  induction a as [|e a IH]; simpl; [reflexivity|].
  destruct e as [| | |o]; simpl; try now rewrite IH.
  destruct o; simpl; now rewrite IH.
Qed.

(* ====================================================================== *)
(** ** What one [run_command] call does *)
(* ====================================================================== *)

Section RunCommand.

Variable env : Env.
Variables (argv : list string) (step total : Z) (title description : string).
Variables (capture : bool) (input_data : option string) (skip_if_exists : bool).
Variable tr : Trace.

Let c := mkCall argv (capture || skip_if_exists) input_data.
Let raw := proc env (nruns tr) c.
Let r := completed c raw.
Let started := (tr ++ step_intro argv step total title description
                   ++ [EvRun c r])%list.

Lemma run_command_started :
  forall k : CompletedProcess -> M CompletedProcess,
    (_step_header step total title ;;
     _describe description ;;
     _show_command argv ;;
     console_print Running ;;
     result <- subprocess_run env c ;;
     k result) tr
    = k r started.
Proof.
  intros k. unfold started, r, raw.
  unfold _step_header, _describe, _show_command, console_print, emit,
    subprocess_run, bind, step_intro. cbn beta iota.
  rewrite <- !app_assoc. cbn [List.app].
  replace (nruns (tr ++ _)%list) with (nruns tr)
    by (rewrite nruns_app; cbn [nruns]; lia).
  reflexivity.
Qed.

Local Lemma r_returncode : returncode r = exit_status raw.
Proof. reflexivity. Qed.

Local Lemma r_stdout :
  stdout r = if capture || skip_if_exists then Some (out raw) else None.
Proof. reflexivity. Qed.

Local Lemma r_stderr :
  stderr r = if capture || skip_if_exists then Some (err raw) else None.
Proof. reflexivity. Qed.

(** The exit status is zero: the step is done. *)
Lemma run_command_success :
  exit_status raw = 0 ->
  run_command env argv step total title description capture input_data
              skip_if_exists tr
  = (Ret r,
     (started ++ [EvPrint Done]
        ++ (if capture && PyStr.truthy (PyStr.strip (out raw))
            then [EvPrint (Captured (PyStr.strip (out raw)))] else []))%list).
Proof.
  intros H. unfold run_command. fold c. rewrite run_command_started.
  rewrite r_returncode, r_stdout, H. cbn [Z.eqb].
  unfold bind, console_print, emit, ret, when.
  destruct capture; cbn.
  - destruct (PyStr.strip (out raw)); cbn; now rewrite <- ?app_assoc.
  - reflexivity.
Qed.

(** The exit status is not zero, [skip_if_exists] is set and the error
    text has an "already exists" marker: the step is skipped. *)
Lemma run_command_skipped :
  exit_status raw <> 0 ->
  skip_if_exists = true ->
  _is_already_exists_error (err raw) = true ->
  run_command env argv step total title description capture input_data
              skip_if_exists tr
  = (Ret r, (started ++ [EvPrint AlreadyExistsSkipping])%list).
Proof.
  intros H Hs He. unfold run_command. fold c. rewrite run_command_started.
  rewrite r_returncode, r_stderr.
  apply Z.eqb_neq in H. rewrite H, Hs.
  rewrite orb_true_r, or_empty_Some, He.
  reflexivity.
Qed.

(** Any other non-zero exit status: the step has failed, and the call
    raises [typer.Exit(code=1)]. *)
Lemma run_command_failed :
  exit_status raw <> 0 ->
  skip_if_exists && _is_already_exists_error (err raw) = false ->
  run_command env argv step total title description capture input_data
              skip_if_exists tr
  = (Raise (Exit 1),
     (started ++ [EvPrint Failed]
        ++ (if (capture || skip_if_exists) && PyStr.truthy (PyStr.strip (err raw))
            then [EvPrint (ErrorPanel (PyStr.strip (err raw)))] else []))%list).
Proof.
  intros H He. unfold run_command. fold c. rewrite run_command_started.
  rewrite r_returncode, r_stderr.
  apply Z.eqb_neq in H. rewrite H.
  replace (skip_if_exists && _ (or_empty _)) with false.
  2:{ destruct skip_if_exists; [|reflexivity].
      now rewrite orb_true_r, or_empty_Some. }
  unfold bind, console_print, emit, ret, raise, when.
  destruct (capture || skip_if_exists); cbn [andb].
  - destruct (err raw) as [|a e] eqn:E; [reflexivity|].
    cbn [PyStr.truthy].
    destruct (PyStr.strip (String a e)); cbn; now rewrite <- ?app_assoc.
  - reflexivity.
Qed.

End RunCommand.

(* ====================================================================== *)
(** ** A program logic for the abort discipline *)
(* ====================================================================== *)

Lemma quiet_app (a b : Trace) : quiet (a ++ b)%list = quiet a && quiet b.
Proof. apply forallb_app. Qed.

Lemma aborted_not_quiet (tr : Trace) : aborted tr -> quiet tr = false.
Proof.
  intros (pre & o & post0 & -> & _ & Ho & _).
  rewrite quiet_app. cbn. rewrite Ho. cbn. apply andb_false_r.
Qed.

Lemma post_ret {A} (a : A) (Q : A -> Prop) : Q a -> post (ret a) Q.
Proof. intros H tr Htr. cbn. auto. Qed.

Lemma post_bind {A B} (m : M A) (k : A -> M B) (Q : A -> Prop) (R : B -> Prop) :
  post m Q -> (forall a, Q a -> post (k a) R) -> post (bind m k) R.
Proof.
  intros Hm Hk tr Htr. unfold bind. specialize (Hm tr Htr).
  destruct (m tr) as [[a|e] tr']; [|exact Hm].
  destruct Hm as [Hq Ha]. exact (Hk a Ha tr' Hq).
Qed.

Lemma post_weaken {A} (m : M A) (Q R : A -> Prop) :
  post m Q -> (forall a, Q a -> R a) -> post m R.
Proof.
  intros Hm HQR tr Htr. specialize (Hm tr Htr).
  destruct (m tr) as [[a|e] tr']; [|exact Hm].
  destruct Hm; auto.
Qed.

Lemma post_print (o : Output) : fatal o = false -> post (console_print o) any.
Proof.
  intros Ho tr Htr. cbn. rewrite quiet_app, Htr. cbn. rewrite Ho. now cbn.
Qed.

Lemma post_sleep (n : Z) : post (time_sleep n) any.
Proof. intros tr Htr. cbn. rewrite quiet_app, Htr. now cbn. Qed.

(** Reporting an unrecoverable failure and raising [typer.Exit(code=1)]. *)
Lemma post_report_and_exit {A} (o : Output) (Q : A -> Prop) :
  fatal o = true -> post (console_print o ;; raise (Exit 1)) Q.
Proof.
  intros Ho tr Htr. cbn. split; [reflexivity|].
  exists tr, o, []. repeat split; assumption.
Qed.

Lemma post_when (c : bool) (body : M unit) :
  post body any -> post (when c body) any.
Proof. intros H. destruct c; [exact H | now apply post_ret]. Qed.

Lemma post_for {A} (xs : list A) (body : A -> M unit) :
  (forall x, post (body x) any) -> post (for_ xs body) any.
Proof.
  intros H. induction xs as [|x xs IH]; cbn [for_].
  - now apply post_ret.
  - eapply post_bind; [apply H | intros; exact IH].
Qed.

Lemma post_strip_of (x : option string) : has_text x -> post (strip_of x) any.
Proof. intros [s ->]. now apply post_ret. Qed.

Section Logic.

Variable env : Env.

Lemma post_subprocess_run (c : Call) :
  post (subprocess_run env c)
       (fun r => capture_output c = true -> has_text (stdout r)).
Proof.
  intros tr Htr. cbn. rewrite quiet_app, Htr. split; [reflexivity|].
  intros ->. now eexists.
Qed.

Lemma post_shutil_which (tool : string) : post (shutil_which env tool) any.
Proof. intros tr Htr. cbn. rewrite quiet_app, Htr. now cbn. Qed.

Lemma quiet_step_intro argv step total title description :
  quiet (step_intro argv step total title description) = true.
Proof. reflexivity. Qed.

Lemma forallb_error_panel_if (b : bool) (text : string) :
  forallb is_error_panel (if b then [EvPrint (ErrorPanel text)] else []) = true.
Proof. now destruct b. Qed.

(** [run_command] keeps the discipline, and a capturing call returns a
    result whose [stdout] is text. *)
Lemma post_run_command argv step total title description capture input_data skip :
  post (run_command env argv step total title description capture input_data skip)
       (fun r => capture = true -> has_text (stdout r)).
Proof.
  intros tr Htr.
  set (c := mkCall argv (capture || skip) input_data).
  set (raw := proc env (nruns tr) c).
  destruct (Z.eq_dec (exit_status raw) 0) as [H0|H0].
  - rewrite (run_command_success _ _ _ _ _ _ _ _ _ _ H0). fold c raw.
    split.
    + rewrite !quiet_app, Htr, quiet_step_intro. cbn.
      now destruct (capture && _).
    + intros ->. cbn. now eexists.
  - destruct (skip && _is_already_exists_error (err raw)) eqn:E.
    + apply andb_true_iff in E as [Es Ee].
      rewrite (run_command_skipped _ _ _ _ _ _ _ _ _ _ H0 Es Ee). fold c raw.
      split.
      * now rewrite !quiet_app, Htr, quiet_step_intro.
      * intros ->. cbn. now eexists.
    + rewrite (run_command_failed _ _ _ _ _ _ _ _ _ _ H0 E). fold c raw.
      split; [reflexivity|].
      eexists _, Failed, _. split; [reflexivity|]. split; [|split].
      * now rewrite !quiet_app, Htr, quiet_step_intro.
      * reflexivity.
      * apply forallb_error_panel_if.
Qed.

End Logic.

(** Deriving [post] along the structure of a program. *)
Ltac post_text :=
  match goal with
  | H : _ -> has_text ?x |- has_text ?x => apply H; reflexivity
  end.

Create HintDb post discriminated.

Ltac post_leaf :=
  first
    [ solve [eauto 1 with post nocore]
    | apply post_print; reflexivity
    | apply post_sleep
    | apply post_shutil_which
    | apply post_subprocess_run
    | apply post_run_command
    | apply post_report_and_exit; reflexivity
    | apply post_strip_of; post_text
    | apply (post_ret _ any); exact I ].

Ltac post_tac :=
  lazymatch goal with
  | |- post (bind _ _) _ =>
      first [ apply post_report_and_exit; reflexivity
            | eapply post_bind; [post_tac | intros ? ?; cbv beta in *; post_tac] ]
  | |- post (when _ _) _ => apply post_when; post_tac
  | |- post (for_ _ _) _ => apply post_for; intros [? [? ?]]; post_tac
  | |- post (if ?b then _ else _) _ => destruct b; post_tac
  | |- post _ _ =>
      first [ post_leaf
            | eapply post_weaken; [post_leaf | intros; exact I] ]
  end.

Section Discipline.

Variable env : Env.

Lemma post_step_header step total title :
  post (_step_header step total title) any.
Proof. unfold _step_header. post_tac. Qed.
Hint Resolve post_step_header : post.

Lemma post_check_prerequisites need_gh need_gcloud :
  post (check_prerequisites env need_gh need_gcloud) any.
Proof. unfold check_prerequisites. post_tac. Qed.

Lemma post_setup_github gh_owner gh_repo_name country_name step_offset total :
  post (setup_github env gh_owner gh_repo_name country_name step_offset total) any.
Proof.
  unfold setup_github. cbv zeta. post_tac.
Qed.

Lemma post_setup_gcp_own pid pname gh_owner gh_repo_name step_offset total :
  post (_setup_gcp_own env pid pname gh_owner gh_repo_name step_offset total) any.
Proof. unfold _setup_gcp_own. cbv zeta. post_tac. Qed.

Lemma post_setup_gcp_shared gh_owner gh_repo_name step_offset total :
  post (_setup_gcp_shared env gh_owner gh_repo_name step_offset total) any.
Proof. unfold _setup_gcp_shared. cbv zeta. post_tac. Qed.

Lemma post_setup_gcp pid pname gh_owner gh_repo_name gcp_mode step_offset total :
  post (setup_gcp env pid pname gh_owner gh_repo_name gcp_mode step_offset total) any.
Proof.
  unfold setup_gcp.
  destruct gcp_mode; [apply post_setup_gcp_own | apply post_setup_gcp_shared].
Qed.

Lemma post_setup_secrets gh_owner gh_repo_name pid gcp_mode number step_offset total :
  post (setup_secrets env gh_owner gh_repo_name pid gcp_mode number step_offset total) any.
Proof. unfold setup_secrets. destruct gcp_mode; cbv zeta; post_tac. Qed.

Hint Resolve post_check_prerequisites post_setup_github post_setup_gcp
  post_setup_secrets : post.

Lemma post_cmd_all country pid pname gh_owner gh_repo_name gcp_mode :
  post (cmd_all env country pid pname gh_owner gh_repo_name gcp_mode) any.
Proof. unfold cmd_all. cbv zeta. post_tac. Qed.

Lemma post_github country gh_owner gh_repo_name :
  post (github env country gh_owner gh_repo_name) any.
Proof. unfold github. post_tac. Qed.

Lemma post_gcp pid pname gh_owner gh_repo_name gcp_mode :
  post (gcp env pid pname gh_owner gh_repo_name gcp_mode) any.
Proof. unfold gcp. post_tac. Qed.

Lemma post_secrets gh_owner gh_repo_name pid gcp_mode number :
  post (secrets env gh_owner gh_repo_name pid gcp_mode number) any.
Proof. unfold secrets. post_tac. Qed.

End Discipline.

(* ====================================================================== *)
(** ** Outcomes of [run_command] *)
(* ====================================================================== *)

(** C1. A call of [run_command] with [skip_if_exists=True] whose process
    exits with a non-zero status and whose error text contains
    "ALREADY_EXISTS" or "already exists" returns the completed process: it
    reports the step as skipped and raises nothing. *)
Theorem run_command_skip_if_exists_returns
    (env : Env) (argv : list string) (step total : Z) (title description : string)
    (capture : bool) (input_data : option string) (tr : Trace) :
  let c := mkCall argv (capture || true) input_data in
  let raw := proc env (nruns tr) c in
  exit_status raw <> 0 ->
  occurs_in "ALREADY_EXISTS" (err raw) \/ occurs_in "already exists" (err raw) ->
  stderr (completed c raw) = Some (err raw)
  /\ run_command env argv step total title description capture input_data true tr
     = (Ret (completed c raw),
        (tr ++ step_intro argv step total title description
            ++ [EvRun c (completed c raw); EvPrint AlreadyExistsSkipping])%list).
Proof.
  intros c raw Hne Hocc. split.
  - unfold completed, c. cbn. now rewrite orb_true_r.
  - rewrite run_command_skipped; fold c raw.
    + now rewrite <- !app_assoc.
    + exact Hne.
    + reflexivity.
    + now apply is_already_exists_error_iff.
Qed.

Lemma run_command_skip_if_exists_returns_witness :
  fst (run_command (Sample.all_fail "ERROR: ALREADY_EXISTS: entity exists")
         ["gcloud"; "create"; "thing"] 1 1 "Create" "Creates a thing"
         false None true [])
  = Ret {| returncode := 1; stdout := Some "";
           stderr := Some "ERROR: ALREADY_EXISTS: entity exists" |}.
Proof.
  rewrite (proj2 (run_command_skip_if_exists_returns
             (Sample.all_fail "ERROR: ALREADY_EXISTS: entity exists")
             ["gcloud"; "create"; "thing"] 1 1 "Create" "Creates a thing"
             false None [] ltac:(cbn; lia)
             ltac:(left; exists "ERROR: ", ": entity exists"; reflexivity))).
  reflexivity.
Defined.

(** Every [run_command] call runs exactly one process and reports exactly
    one outcome; it returns unless the outcome is [failed]. *)
Lemma run_step_cases (env : Env) (s : Step) (tr : Trace) :
  exists new,
    snd (run_step env s tr) = (tr ++ new)%list
    /\ commands new = [step_cmd s]
    /\ ((exists r, fst (run_step env s tr) = Ret r
                   /\ (outcomes new = [success]
                       \/ outcomes new = [skipped_already_exists]))
        \/ (fst (run_step env s tr) = Raise (Exit 1)
            /\ outcomes new = [failed])).
Proof.
  unfold run_step.
  set (c := mkCall (step_cmd s) (step_capture s || step_skip_if_exists s)
                   (step_input_data s)).
  set (raw := proc env (nruns tr) c).
  destruct (Z.eq_dec (exit_status raw) 0) as [H0|H0].
  - rewrite (run_command_success _ _ _ _ _ _ _ _ _ _ H0). fold c raw.
    eexists. split; [cbn [snd]; rewrite <- !app_assoc; reflexivity|].
    split; [|left; eexists; split; [reflexivity|left]];
      destruct (step_capture s && _); reflexivity.
  - destruct (step_skip_if_exists s && _is_already_exists_error (err raw)) eqn:E.
    + apply andb_true_iff in E as [Es Ee].
      rewrite (run_command_skipped _ _ _ _ _ _ _ _ _ _ H0 Es Ee). fold c raw.
      eexists. split; [cbn [snd]; rewrite <- !app_assoc; reflexivity|].
      split; [reflexivity|]. left. eexists. split; [reflexivity|now right].
    + rewrite (run_command_failed _ _ _ _ _ _ _ _ _ _ H0 E). fold c raw.
      eexists. split; [cbn [snd]; rewrite <- !app_assoc; reflexivity|].
      split; [|right; split; [reflexivity|]];
        destruct ((step_capture s || step_skip_if_exists s) && _); reflexivity.
Qed.

(* ====================================================================== *)
(** ** Sequences of steps *)
(* ====================================================================== *)

(** The loop over [apis] in [_setup_gcp_own] is a sequence of steps. *)
Lemma enable_apis_loop (env : Env) (pid : string) (step_offset total : Z) :
  for_ (enumerate apis) (fun '(i, (api, reason)) =>
    run_command env
      ["gcloud"; "services"; "enable"; api; "--project=" ++ pid]
      (step_offset + 3) total
      ("Enable API (" ++ PyStr.of_int (i + 1) ++ "/" ++ PyStr.of_int (len apis) ++ ")")
      ("Enables " ++ reason)
      false None false ;;
    ret tt)
  = run_steps env (enable_api_steps pid step_offset total).
Proof. reflexivity. Qed.

Lemma run_steps_cons (env : Env) (s : Step) (steps : list Step) (tr : Trace) :
  run_steps env (s :: steps) tr
  = match run_step env s tr with
    | (Ret _, tr') => run_steps env steps tr'
    | (Raise e, tr') => (Raise e, tr')
    end.
Proof.
  unfold run_steps. cbn [for_]. unfold bind, ret.
  destruct (run_step env s tr) as [[?|?] ?]; reflexivity.
Qed.

(** The shape of the trace of a sequence of steps: the processes run are
    those of a prefix of the sequence, one outcome each; either every step
    was run and none failed, or the run raised the exit at the first failed
    step, which is the last one run. *)
Lemma run_steps_shape (env : Env) (steps : list Step) :
  forall tr, exists new,
    snd (run_steps env steps tr) = (tr ++ new)%list
    /\ commands new = firstn (length (outcomes new)) (map step_cmd steps)
    /\ ((fst (run_steps env steps tr) = Ret tt
         /\ length (outcomes new) = length steps
         /\ ~ In failed (outcomes new))
        \/ (fst (run_steps env steps tr) = Raise (Exit 1)
            /\ (length (outcomes new) <= length steps)%nat
            /\ exists os, outcomes new = (os ++ [failed])%list
                          /\ ~ In failed os)).
Proof.
  induction steps as [|s steps IH]; intros tr.
  - exists []. cbn. rewrite app_nil_r.
    split; [reflexivity|]. split; [reflexivity|]. left. auto.
  - rewrite run_steps_cons.
    destruct (run_step_cases env s tr) as (new & Htr & Hc & Hcases).
    destruct (run_step env s tr) as [res tr1]. cbn [fst snd] in *. subst tr1.
    destruct Hcases as [(r & -> & Ho) | (-> & Ho)].
    + destruct (IH (tr ++ new)%list) as (new' & Htr' & Hc' & Hres').
      exists (new ++ new')%list.
      rewrite Htr', app_assoc. split; [reflexivity|].
      rewrite commands_app, outcomes_app, Hc, Hc'.
      assert (Hlen : exists o, outcomes new = [o] /\ o <> failed)
        by (destruct Ho as [-> | ->]; eexists; split; try reflexivity; discriminate).
      destruct Hlen as (o & -> & Hne). cbn [List.app length map firstn].
      split; [reflexivity|].
      destruct Hres' as [(Hr & Hl & Hn) | (Hr & Hl & os & Hos & Hn)].
      * left. repeat split; auto. intros [|]; auto.
      * right. split; [exact Hr|]. split; [lia|].
        exists (o :: os). rewrite Hos. split; [reflexivity|].
        intros [|]; auto.
    + exists new. split; [reflexivity|]. rewrite Ho, Hc. cbn.
      split; [reflexivity|]. right. split; [reflexivity|]. split; [lia|].
      exists []. auto.
Qed.

(** A failed outcome is the last outcome, and the run has raised. *)
Lemma failed_is_last (os : list Outcome) (j : nat) :
  ~ In failed os ->
  nth_error (os ++ [failed])%list j = Some failed ->
  S j = length (os ++ [failed])%list.
Proof.
  intros Hn H. rewrite length_app. cbn.
  destruct (Nat.lt_ge_cases j (length os)) as [Hlt|Hge].
  - rewrite nth_error_app1 in H by exact Hlt.
    apply nth_error_In in H. contradiction.
  - assert (j < length (os ++ [failed])%list)%nat
      by (apply nth_error_Some; congruence).
    rewrite length_app in *. cbn in *. lia.
Qed.

(** In a trace split at a report of an unrecoverable failure, with nothing
    unrecoverable before it, the split point is determined. *)
Lemma first_fatal_unique (pre pre' post0 post' : Trace) (o o' : Output) :
  (pre ++ EvPrint o :: post0)%list = (pre' ++ EvPrint o' :: post')%list ->
  fatal o = true ->
  quiet pre' = true -> fatal o' = true -> forallb is_error_panel post' = true ->
  quiet pre = true /\ post0 = post'.
Proof.
  unfold quiet.
  revert pre'. induction pre as [|e pre IH]; intros [|e' pre'] H Ho Hq Ho' Hp.
  - cbn in H. inversion H. auto.
  - cbn in H. inversion H; subst e'. cbn in Hq. rewrite Ho in Hq. discriminate.
  - cbn in H. inversion H; subst e. exfalso.
    assert (Hin : In (EvPrint o) post') by (rewrite <- H2; apply in_elt).
    rewrite forallb_forall in Hp. specialize (Hp _ Hin). cbn in Hp.
    destruct o; discriminate.
  - cbn in H. inversion H; subst e'. cbn in Hq.
    apply andb_true_iff in Hq as [He Hq].
    destruct (IH pre' H2 Ho Hq Ho' Hp) as [Hq' ->].
    split; [cbn; now rewrite He, Hq' | reflexivity].
Qed.

Lemma error_panels_inert (tr : Trace) :
  forallb is_error_panel tr = true ->
  actions tr = [] /\ headers tr = [] /\ commands tr = [] /\ outcomes tr = [].
Proof.
  induction tr as [|e tr IH]; cbn; [auto|].
  intros H. apply andb_true_iff in H as [He H].
  destruct e as [| | |o]; try discriminate. destruct o; try discriminate.
  cbn. auto.
Qed.

Lemma quiet_no_failed (tr : Trace) : quiet tr = true -> ~ In failed (outcomes tr).
Proof.
  induction tr as [|e tr IH]; cbn; [tauto|].
  intros H. apply andb_true_iff in H as [He H].
  destruct e as [| | |o]; cbn; auto.
  destruct o; cbn in *; try discriminate; auto; intros [|]; try discriminate;
    now apply IH.
Qed.

(** After a failed step of any invocation nothing more happens. *)
Lemma app_stops_at_failure (env : Env) (inv : Invocation) (pre post0 : Trace) :
  snd (app env inv []) = (pre ++ EvPrint Failed :: post0)%list ->
  fst (app env inv []) = Raise (Exit 1)
  /\ actions post0 = [] /\ headers post0 = [] /\ outcomes post0 = []
  /\ ~ In failed (outcomes pre).
Proof.
  intros H.
  assert (Hp : post (app env inv) any).
  { destruct inv; cbn [app];
      [apply post_cmd_all | apply post_github | apply post_gcp | apply post_secrets]. }
  specialize (Hp [] eq_refl).
  destruct (app env inv []) as [[a|e] tr]; cbn [fst snd] in *.
  - destruct Hp as [Hq _]. subst tr. rewrite quiet_app in Hq. cbn in Hq.
    now rewrite andb_false_r in Hq.
  - destruct Hp as [-> (pre' & o' & post' & Htr & Hq & Ho' & Hpost)].
    rewrite Htr in H. symmetry in H.
    destruct (first_fatal_unique _ _ _ _ _ _ H eq_refl Hq Ho' Hpost) as [Hq' ->].
    destruct (error_panels_inert _ Hpost) as (Ha & Hh & _ & Hout).
    repeat split; auto. now apply quiet_no_failed.
Qed.

(** C7. In every sequence of steps, the processes that are run are those
    of an initial segment of the sequence, one outcome each; if a step [j]
    ends in the failed outcome, no later step [k] is started and the run has
    raised the exit; hence every step that is started has only succeeded or
    skipped steps before it.  For the script itself, under every invocation,
    a failed step is followed by no process, no sleep and no further step,
    and no step before it has failed. *)
Theorem failed_step_ends_the_run
    (env : Env) (steps : list Step) (inv : Invocation) :
  let tr := snd (run_steps env steps []) in
  commands tr = firstn (length (outcomes tr)) (map step_cmd steps)
  /\ (forall j k : nat,
        (j < k)%nat ->
        nth_error (outcomes tr) j = Some failed ->
        nth_error (commands tr) k = None
        /\ nth_error (outcomes tr) k = None
        /\ fst (run_steps env steps []) = Raise (Exit 1))
  /\ (forall k i : nat,
        (k < length (commands tr))%nat -> (i < k)%nat ->
        nth_error (outcomes tr) i = Some success
        \/ nth_error (outcomes tr) i = Some skipped_already_exists)
  /\ (forall pre post0 : Trace,
        snd (app env inv []) = (pre ++ EvPrint Failed :: post0)%list ->
        fst (app env inv []) = Raise (Exit 1)
        /\ actions post0 = [] /\ headers post0 = [] /\ outcomes post0 = []
        /\ ~ In failed (outcomes pre)).
Proof.
  intros tr.
  destruct (run_steps_shape env steps []) as (new & Htr & Hc & Hshape).
  cbn [List.app] in Htr. fold tr in Htr. subst new.
  assert (Hf : forall j, nth_error (outcomes tr) j = Some failed ->
                 S j = length (outcomes tr)
                 /\ fst (run_steps env steps []) = Raise (Exit 1)).
  { intros j Hj.
    destruct Hshape as [(_ & _ & Hn) | (Hr & _ & os & Hos & Hn)].
    - apply nth_error_In in Hj. contradiction.
    - split; [|exact Hr]. rewrite Hos in *. now apply failed_is_last. }
  assert (Hlen : (length (commands tr) <= length (outcomes tr))%nat).
  { rewrite Hc, length_firstn. lia. }
  split; [exact Hc|]. split; [|split].
  - intros j k Hjk Hj. destruct (Hf j Hj) as [Hlast Hres].
    repeat split; [apply nth_error_None; lia | apply nth_error_None; lia | exact Hres].
  - intros k i Hk Hik.
    destruct (nth_error (outcomes tr) i) as [o|] eqn:Ho.
    + destruct o; auto. destruct (Hf i Ho) as [Hlast _]. lia.
    + apply nth_error_None in Ho. lia.
  - intros pre post0. apply app_stops_at_failure.
Qed.

Lemma failed_step_ends_the_run_witness :
  outcomes (snd (run_steps (Sample.fail_at [1%nat] "boom" "") Sample.three_steps []))
  = [success; failed]
  /\ nth_error
       (commands (snd (run_steps (Sample.fail_at [1%nat] "boom" "")
                                 Sample.three_steps []))) 2
     = None.
Proof.
  split; [reflexivity|].
  apply (proj1 (proj2 (failed_step_ends_the_run
                         (Sample.fail_at [1%nat] "boom" "") Sample.three_steps
                         (InvokeGithub "Ruritania" "owner" "repo")))
           1%nat 2%nat); [lia | reflexivity].
Defined.

(** The exit status of every invocation is 0 or 1: 1 exactly when an
    unrecoverable failure was reported. *)
Lemma app_exit_code (env : Env) (inv : Invocation) :
  process_exit_code (fst (app env inv []))
  = if quiet (snd (app env inv [])) then 0 else 1.
Proof.
  assert (Hp : post (app env inv) any).
  { destruct inv; cbn [app];
      [apply post_cmd_all | apply post_github | apply post_gcp | apply post_secrets]. }
  specialize (Hp [] eq_refl).
  destruct (app env inv []) as [[a|e] tr]; cbn [fst snd] in *.
  - destruct Hp as [-> _]. reflexivity.
  - destruct Hp as [-> Hab]. now rewrite (aborted_not_quiet _ Hab).
Qed.



(* ====================================================================== *)
(** ** Prerequisites *)
(* ====================================================================== *)



(* ====================================================================== *)
(** ** Secret publication *)
(* ====================================================================== *)

Lemma two_steps_are_run_steps (env : Env) (s1 s2 : Step) (tr : Trace) :
  (run_step env s1 ;; run_step env s2 ;; ret tt) tr = run_steps env [s1; s2] tr.
Proof.
  rewrite run_steps_cons. unfold bind at 1.
  destruct (run_step env s1 tr) as [[r1|e1] tr1]; [|reflexivity].
  rewrite run_steps_cons. unfold bind at 1.
  destruct (run_step env s2 tr1) as [[r2|e2] tr2]; reflexivity.
Qed.


(* ====================================================================== *)
(** ** Runs without a failure *)
(* ====================================================================== *)

Lemma digest_app (a b : Trace) : digest (a ++ b)%list = (digest a ++ digest b)%list.
Proof. apply flat_map_app. Qed.

Lemma item_runs_app (a b : list Item) :
  item_runs (a ++ b)%list = (item_runs a + item_runs b)%nat.
Proof. unfold item_runs. now rewrite filter_app, length_app. Qed.

Lemma commands_digest (tr : Trace) : commands tr = item_commands (digest tr).
Proof.
  induction tr as [|e tr IH]; [reflexivity|].
  destruct e as [| | |o]; cbn; try (now rewrite IH); destruct o; cbn; now rewrite IH.
Qed.

Lemma actions_digest (tr : Trace) : actions tr = item_actions (digest tr).
Proof.
  induction tr as [|e tr IH]; [reflexivity|].
  destruct e as [| | |o]; cbn; try (now rewrite IH); destruct o; cbn; now rewrite IH.
Qed.

Lemma outcomes_digest (tr : Trace) : outcomes tr = item_outcomes (digest tr).
Proof.
  induction tr as [|e tr IH]; [reflexivity|].
  destruct e as [| | |o]; cbn; try (now rewrite IH); destruct o; cbn; now rewrite IH.
Qed.

Lemma headers_digest (tr : Trace) : headers tr = item_headers (digest tr).
Proof.
  induction tr as [|e tr IH]; [reflexivity|].
  destruct e as [| | |o]; cbn; try (now rewrite IH); destruct o; cbn; now rewrite IH.
Qed.

Lemma runs_ret {A} (n : nat) (a : A) : runs_from n (ret a) a [].
Proof.
  intros tr Hn. exists tr. cbn. now rewrite app_nil_r.
Qed.

Lemma runs_bind {A B} (n : nat) (m : M A) (k : A -> M B)
    (a : A) (b : B) (i1 i2 : list Item) :
  runs_from n m a i1 ->
  runs_from (item_runs i1 + n) (k a) b i2 ->
  runs_from n (bind m k) b (i1 ++ i2)%list.
Proof.
  intros Hm Hk tr Hn.
  destruct (Hm tr Hn) as (tr1 & E1 & D1 & N1).
  destruct (Hk tr1 N1) as (tr2 & E2 & D2 & N2).
  exists tr2. unfold bind. rewrite E1. split; [exact E2|].
  split; [now rewrite D2, D1, app_assoc|].
  rewrite N2, item_runs_app. lia.
Qed.

Lemma runs_conv {A} (n : nat) (m : M A) (a a' : A) (i i' : list Item) :
  runs_from n m a i -> a = a' -> i = i' -> runs_from n m a' i'.
Proof. now intros H <- <-. Qed.

Lemma runs_emit (n : nat) (e : Event) :
  nruns [e] = O -> runs_from n (emit e) tt (digest_event e).
Proof.
  intros He tr Hn. eexists. split; [reflexivity|].
  rewrite digest_app, nruns_app, He, Hn. cbn. rewrite app_nil_r.
  split; [reflexivity|].
  destruct e as [| | |o]; try discriminate; try (cbn; lia).
  destruct o; cbn; lia.
Qed.

Lemma runs_print (n : nat) (o : Output) :
  runs_from n (console_print o) tt (digest_event (EvPrint o)).
Proof. now apply runs_emit. Qed.

Lemma runs_sleep (n : nat) (seconds : Z) :
  runs_from n (time_sleep seconds) tt [ItSleep seconds].
Proof. now apply (runs_emit n (EvSleep seconds)). Qed.

Lemma runs_strip_of (n : nat) (s : string) :
  runs_from n (strip_of (Some s)) (PyStr.strip s) [].
Proof. apply runs_ret. Qed.

Section Runs.

Variable env : Env.

Lemma runs_which (n : nat) (tool : string) :
  runs_from n (shutil_which env tool) (which env tool) [].
Proof.
  intros tr Hn. eexists. split; [reflexivity|].
  rewrite digest_app, nruns_app, Hn. cbn. rewrite app_nil_r. split; [reflexivity|lia].
Qed.

Lemma runs_subprocess (n : nat) (c : Call) :
  runs_from n (subprocess_run env c) (completed c (proc env n c)) [ItRun c].
Proof.
  intros tr Hn. unfold subprocess_run. rewrite Hn. eexists. split; [reflexivity|].
  rewrite digest_app, nruns_app, Hn. cbn. split; [reflexivity|lia].
Qed.

Lemma runs_step_header (n : nat) (step total : Z) (title : string) :
  runs_from n (_step_header step total title) tt [ItHeader step total title].
Proof.
  unfold _step_header.
  eapply runs_conv; [eapply runs_bind; [apply runs_print|apply runs_print]|..];
    reflexivity.
Qed.

Variables (argv : list string) (step total : Z) (title description : string).
Variables (capture : bool) (input_data : option string) (skip_if_exists : bool).
Variable n : nat.

Let c := mkCall argv (capture || skip_if_exists) input_data.

(** A step whose process exits with status 0. *)
Lemma runs_command_ok :
  exit_status (proc env n c) = 0 ->
  runs_from n
    (run_command env argv step total title description capture input_data
                 skip_if_exists)
    (completed c (proc env n c))
    (step_items step total title argv (capture || skip_if_exists) input_data
                success).
Proof.
  intros H tr Hn. subst n. rewrite (run_command_success _ _ _ _ _ _ _ _ _ _ H).
  fold c. eexists. split; [reflexivity|].
  rewrite !digest_app, !nruns_app.
  destruct (capture && _); cbn; rewrite <- !app_assoc; split; (reflexivity || lia).
Qed.

(** A step under [skip_if_exists] whose process reports that the resource
    exists already. *)
Lemma runs_command_skipped :
  exit_status (proc env n c) <> 0 ->
  skip_if_exists = true ->
  _is_already_exists_error (err (proc env n c)) = true ->
  runs_from n
    (run_command env argv step total title description capture input_data
                 skip_if_exists)
    (completed c (proc env n c))
    (step_items step total title argv (capture || skip_if_exists) input_data
                skipped_already_exists).
Proof.
  intros H Hs He tr Hn. subst n.
  rewrite (run_command_skipped _ _ _ _ _ _ _ _ _ _ H Hs He).
  fold c. eexists. split; [reflexivity|].
  rewrite !digest_app, !nruns_app. cbn. rewrite <- !app_assoc.
  split; (reflexivity || lia).
Qed.

End Runs.

(* ====================================================================== *)
(** ** Following the script along a run without failure *)
(* ====================================================================== *)

Ltac runs_simpl :=
  cbn [item_runs filter length Nat.add List.app step_items digest_event
       for_ enumerate enumerate_from apis
       returncode stdout stderr completed capture_output when is_None].

(** Following a program along a run without failure; [leaf] settles the
    steps and the conditionals. *)
Ltac runs_go leaf :=
  runs_simpl;
  lazymatch goal with
  | |- runs_from _ (bind _ _) _ _ =>
      eapply runs_bind; [runs_go leaf | runs_go leaf]
  | |- runs_from _ (ret _) _ _ => apply runs_ret
  | |- runs_from _ (console_print _) _ _ => apply runs_print
  | |- runs_from _ (time_sleep _) _ _ => apply runs_sleep
  | |- runs_from _ (shutil_which _ _) _ _ => apply runs_which
  | |- runs_from _ (subprocess_run _ _) _ _ => apply runs_subprocess
  | |- runs_from _ (_step_header _ _ _) _ _ => apply runs_step_header
  | |- runs_from _ (strip_of _) _ _ => apply runs_strip_of
  | |- _ => leaf; try runs_go leaf
  end.

(** The test of line 306. *)
Lemma runs_project_check (pid : string) (k : nat) (raw : RawOutput) :
  runs_from k
    (if (exit_status raw =? 0)%Z
     then text <- strip_of (Some (out raw)) ;; ret (text =? pid)%string
     else ret false)
    (project_exists raw pid) [].
Proof.
  unfold project_exists. destruct (exit_status raw =? 0)%Z; cbn [andb].
  - eapply runs_conv; [eapply runs_bind; [apply runs_strip_of|apply runs_ret]|..];
      reflexivity.
  - apply runs_ret.
Qed.

Section OwnProject.

Variable env : Env.
Variables pid pname gh_owner gh_repo_name : string.
Variables off total : Z.
Variable n : nat.

Let account := PyStr.strip (out (proc env (2 + n) gcloud_auth_list)).
Let number := PyStr.strip (out (proc env (13 + n) (project_number_query pid))).

Hypothesis Hfresh :
  project_exists (proc env n (project_exists_query pid)) pid = false.
Hypothesis Hok : forall k c, (n < k)%nat -> exit_status (proc env k c) = 0.

(** [_setup_gcp_own] on a project that does not exist yet, when every
    later process exits with status 0. *)
Lemma setup_gcp_own_fresh :
  runs_from n
    (_setup_gcp_own env pid pname gh_owner gh_repo_name off total)
    number
    (own_items (project_created pid pname off total) success
               pid gh_owner gh_repo_name account number off total).
Proof.
  pose proof Hfresh as Hf. unfold project_exists_query in Hf.
  unfold _setup_gcp_own.
  eapply runs_conv.
  - runs_go ltac:(first [ apply runs_command_ok; apply Hok; lia
                        | apply runs_project_check
                        | rewrite Hf ]).
  - reflexivity.
  - reflexivity.
Qed.

End OwnProject.

Section AllOnProvisioned.

Variable env : Env.
Variables country pid pname gh_owner gh_repo_name : string.

Let account := PyStr.strip (out (proc env 7 gcloud_auth_list)).
Let number := PyStr.strip (out (proc env 18 (project_number_query pid))).

Hypothesis Hprov : provisioned env pid.

(** The [all] command, mode [own], on a provisioned target. *)
Lemma cmd_all_provisioned :
  runs_from 0
    (cmd_all env country pid pname gh_owner gh_repo_name own)
    tt
    (prerequisites_items
       ++ github_items (repo_found gh_owner gh_repo_name 0 13)
                       gh_owner gh_repo_name 0 13
       ++ own_items (project_found pid 3 13) skipped_already_exists
                    pid gh_owner gh_repo_name account number 3 13
       ++ secrets_own_items gh_owner gh_repo_name pid number 11 13)%list.
Proof.
  destruct Hprov as ([p1 Hp1] & [p2 Hp2] & Hl & Hp & Hcreate & Hother).
  unfold gcloud_auth_list in Hl. unfold project_exists_query in Hp.
  unfold cmd_all, check_prerequisites, setup_github, setup_gcp, _setup_gcp_own,
    setup_secrets.
  eapply runs_conv.
  - runs_go ltac:(first
      [ apply runs_command_ok; apply Hother; reflexivity
      | apply runs_command_skipped;
          [apply Hcreate; reflexivity | reflexivity | apply Hcreate; reflexivity]
      | apply runs_project_check
      | rewrite Hp1 | rewrite Hp2
      | rewrite Hother by reflexivity; cbn [Z.eqb negb]
      | rewrite Hl; cbn [negb]
      | unfold project_exists; rewrite Hother by reflexivity; rewrite Hp;
        rewrite String.eqb_refl; cbn [Z.eqb andb] ]).
  - reflexivity.
  - reflexivity.
Qed.

End AllOnProvisioned.

Section AllOnFresh.

Variable env : Env.
Variables country pid pname gh_owner gh_repo_name : string.

Let account := PyStr.strip (out (proc env 8 gcloud_auth_list)).
Let number := PyStr.strip (out (proc env 19 (project_number_query pid))).

Hypothesis Hfresh : fresh_target env gh_owner gh_repo_name pid.

(** The [all] command, mode [own], on a fresh target. *)
Lemma cmd_all_fresh :
  runs_from 0
    (cmd_all env country pid pname gh_owner gh_repo_name own)
    tt
    (prerequisites_items
       ++ github_items (repo_created gh_repo_name country 0 13)
                       gh_owner gh_repo_name 0 13
       ++ own_items (project_created pid pname 3 13) success
                    pid gh_owner gh_repo_name account number 3 13
       ++ secrets_own_items gh_owner gh_repo_name pid number 11 13)%list.
Proof.
  destruct Hfresh as ([p1 Hp1] & [p2 Hp2] & Hl & Hview & Hf & Hok).
  unfold gcloud_auth_list in Hl. unfold project_exists_query in Hf.
  unfold repo_view_query in Hview. apply Z.eqb_neq in Hview.
  unfold cmd_all, check_prerequisites, setup_github, setup_gcp, _setup_gcp_own,
    setup_secrets.
  eapply runs_conv.
  - runs_go ltac:(first
      [ apply runs_command_ok; apply Hok; lia
      | apply runs_project_check
      | rewrite Hp1 | rewrite Hp2
      | rewrite Hview
      | rewrite Hf
      | rewrite Hok by lia; cbn [Z.eqb negb]
      | rewrite Hl; cbn [negb] ]).
  - reflexivity.
  - reflexivity.
Qed.

End AllOnFresh.

(* ====================================================================== *)
(** ** Stripping a padded number *)
(* ====================================================================== *)

Lemma lstrip_padding (a s : string) :
  PyStr.all_space a = true -> PyStr.lstrip (a ++ s) = PyStr.lstrip s.
Proof.
  induction a as [|c a IH]; cbn; [reflexivity|].
  intros H. apply andb_true_iff in H as [Hc Ha]. now rewrite Hc, IH.
Qed.

Lemma rstrip_padding (s b : string) :
  PyStr.all_space b = true -> PyStr.rstrip (s ++ b) = PyStr.rstrip s.
Proof.
  intros Hb. induction s as [|c s IH]; cbn.
  - now apply rstrip_empty_iff.
  - now rewrite IH.
Qed.

Lemma digit_not_space (c : ascii) : PyStr.isdigit c = true -> PyStr.isspace c = false.
Proof.
  unfold PyStr.isdigit, PyStr.isspace. cbv zeta. intros H.
  apply andb_true_iff in H as [H1 H2].
  apply Nat.leb_le in H1, H2.
  apply orb_false_iff. split; apply andb_false_iff.
  - right. apply Nat.leb_gt. lia.
  - right. apply Nat.leb_gt. lia.
Qed.

Lemma rstrip_digits (d : string) : PyStr.all_digits d = true -> PyStr.rstrip d = d.
Proof.
  induction d as [|c d IH]; cbn; [reflexivity|].
  intros H. apply andb_true_iff in H as [Hc Hd].
  rewrite (IH Hd). destruct d; [|reflexivity].
  now rewrite (digit_not_space _ Hc).
Qed.

(** Stripping a string of digits padded with whitespace gives the digits. *)
Lemma strip_padded_digits (a d b : string) :
  PyStr.all_space a = true -> PyStr.all_space b = true ->
  PyStr.all_digits d = true ->
  PyStr.strip (a ++ d ++ b) = d.
Proof.
  intros Ha Hb Hd. unfold PyStr.strip. rewrite lstrip_padding by exact Ha.
  destruct d as [|c d].
  - cbn. rewrite lstrip_all_space by exact Hb. reflexivity.
  - cbn [String.append PyStr.lstrip].
    cbn in Hd. apply andb_true_iff in Hd as [Hc Hd'].
    rewrite (digit_not_space _ Hc).
    change (String c (d ++ b)) with (String c d ++ b).
    rewrite rstrip_padding by exact Hb.
    apply rstrip_digits. cbn. now rewrite Hc, Hd'.
Qed.

(* ====================================================================== *)
(** ** Provisioning an own project *)
(* ====================================================================== *)



(** C3, as the code has it.  Called without a total, as the [gcp] command
    does, [setup_gcp] numbers the steps of mode [own] out of 7 and those of
    mode [shared] out of 2; the [all] command counts 8 and 2.  On a run of
    the [gcp] command in mode [own] in which every process exits with status
    0, the headers go from "Step 1 of 7" to "Step 8 of 7". *)
Theorem gcp_command_counts_seven_steps :
  (forall env pid pname gh_owner gh_repo_name off,
      setup_gcp env pid pname gh_owner gh_repo_name own off None
      = _setup_gcp_own env pid pname gh_owner gh_repo_name off 7)
  /\ (forall env pid pname gh_owner gh_repo_name off,
        setup_gcp env pid pname gh_owner gh_repo_name shared off None
        = _setup_gcp_shared env gh_owner gh_repo_name off 2)
  /\ headers (snd (app (Sample.all_ok ("123456789" ++ LF))
                       (InvokeGcp "proj-id" "Proj Name" "owner" "repo" own) []))
     = [ (1, 7, "Create GCP Project"); (2, 7, "Ensure Owner Permissions");
         (3, 7, "Enable API (1/4)"); (3, 7, "Enable API (2/4)");
         (3, 7, "Enable API (3/4)"); (3, 7, "Enable API (4/4)");
         (4, 7, "Create Workload Identity Pool");
         (5, 7, "Create OIDC Provider"); (6, 7, "Create Service Account");
         (7, 7, "Grant IAM Roles (1/2)"); (7, 7, "Grant IAM Roles (2/2)");
         (8, 7, "Get GCP Project Number");
         (8, 7, "Bind Repository to Service Account") ]
  /\ headers (snd (app (Sample.all_ok ("123456789" ++ LF))
                       (InvokeGcp "proj-id" "Proj Name" "owner" "repo" shared) []))
     = [ (1, 2, "Get Shared Project Number");
         (2, 2, "Add IAM Binding to Shared Project") ]
  /\ map (fun h => (fst (fst h), snd (fst h)))
         (headers (snd (app (Sample.all_ok ("123456789" ++ LF))
                            (InvokeAll "Ruritania" "proj-id" "Proj Name"
                                       "owner" "repo" own) [])))
     = [ (1, 13); (2, 13); (3, 13);
         (4, 13); (5, 13); (6, 13); (6, 13); (6, 13); (6, 13); (7, 13);
         (8, 13); (9, 13); (10, 13); (10, 13); (11, 13); (11, 13);
         (12, 13); (13, 13) ].
Proof.
  repeat split; vm_compute; reflexivity.
Qed.

(* ====================================================================== *)
(** ** Running the whole sequence again *)
(* ====================================================================== *)

(** The configuring commands of the [all] command do not depend on what
    happened to the creations. *)
Lemma settings_of_all (country pid pname gh_owner gh_repo_name account number : string) :
  settings (prerequisites_items
            ++ github_items (repo_found gh_owner gh_repo_name 0 13)
                            gh_owner gh_repo_name 0 13
            ++ own_items (project_found pid 3 13) skipped_already_exists
                         pid gh_owner gh_repo_name account number 3 13
            ++ secrets_own_items gh_owner gh_repo_name pid number 11 13)%list
  = settings (prerequisites_items
              ++ github_items (repo_created gh_repo_name country 0 13)
                              gh_owner gh_repo_name 0 13
              ++ own_items (project_created pid pname 3 13) success
                           pid gh_owner gh_repo_name account number 3 13
              ++ secrets_own_items gh_owner gh_repo_name pid number 11 13)%list.
Proof. vm_compute. reflexivity. Qed.



(* ====================================================================== *)
(** ** The second script *)
(* ====================================================================== *)

Module UploadDemoAssetFacts.

Import UploadDemoAsset.

Lemma npolls_app (a b : Trace) : npolls (a ++ b)%list = (npolls a + npolls b)%nat.
Proof.
  induction a as [|e a IH]; cbn; [reflexivity|].
  destruct e; cbn; now rewrite IH.
Qed.

(** The loop ends as soon as the task is no longer active, after one
    sleep of two seconds per poll that found it active. *)
Lemma poll_finishes (ee : EarthEngine) (n : nat) :
  forall fuel tr,
    finishes_after ee (npolls tr) n -> (n < fuel)%nat ->
    poll ee fuel tr
    = (Ret tt, (tr ++ polling_rounds n ++ [TaskActive false])%list).
Proof.
  induction n as [|n IH]; intros fuel tr [Hact Hend] Hfuel;
    (destruct fuel as [|fuel]; [lia|]); cbn [poll polling_rounds].
  - unfold bind, task_active. rewrite Nat.add_0_r in Hend. rewrite Hend.
    reflexivity.
  - unfold bind at 1, task_active.
    rewrite <- (Nat.add_0_r (npolls tr)), (Hact O) by lia.
    unfold bind at 1, emit. rewrite <- app_assoc.
    rewrite IH.
    + rewrite <- app_assoc. reflexivity.
    + rewrite npolls_app. cbn. split.
      * intros i Hi. replace (npolls tr + 1 + i)%nat with (npolls tr + S i)%nat by lia.
        apply Hact. lia.
      * replace (npolls tr + 1 + n)%nat with (npolls tr + S n)%nat by lia.
        exact Hend.
    + lia.
Qed.

(** While the task stays active the loop does not end. *)
Lemma poll_still_polling (ee : EarthEngine) :
  (forall i, active_at ee i = true) ->
  forall fuel tr, fst (poll ee fuel tr) = StillPolling.
Proof.
  intros Hact. induction fuel as [|fuel IH]; intros tr; cbn [poll].
  - reflexivity.
  - unfold bind at 1, task_active. rewrite Hact.
    unfold bind at 1, emit. apply IH.
Qed.

(** C10. If the lookup of the asset succeeds, [upload_demo_asset] prints
    that the asset exists and returns: it creates no folder, builds no
    collection and starts no export task. *)
Theorem existing_asset_is_left_alone
    (ee : EarthEngine) (fuel : nat) (project : string) (tr : Trace) :
  let asset_id := "projects/" ++ project ++ "/assets/demo/null_island_ecosystems" in
  let new := [ AuthDefault ["https://www.googleapis.com/auth/earthengine"];
               Initialize project;
               GetAsset asset_id;
               Print ("Asset already exists: " ++ asset_id) ] in
  getAsset_raises ee asset_id = false ->
  upload_demo_asset ee fuel project tr = (Ret tt, (tr ++ new)%list)
  /\ mutates new = false
  /\ uploads new = false.
Proof.
  intros asset_id new H. split; [|split; reflexivity].
  unfold upload_demo_asset. fold asset_id.
  unfold bind, google_auth_default, ee_Initialize, try_except_EEException,
    ee_data_getAsset, bind, emit, ret.
  rewrite H. unfold new. now rewrite <- !app_assoc.
Qed.

Lemma existing_asset_is_left_alone_witness :
  upload_demo_asset Sample.store_with_asset 10 "my-project" []
  = (Ret tt,
     [ AuthDefault ["https://www.googleapis.com/auth/earthengine"];
       Initialize "my-project";
       GetAsset "projects/my-project/assets/demo/null_island_ecosystems";
       Print "Asset already exists: projects/my-project/assets/demo/null_island_ecosystems" ]).
Proof.
  apply (proj1 (existing_asset_is_left_alone
                  Sample.store_with_asset 10 "my-project" [] eq_refl)).
Defined.




End UploadDemoAssetFacts.

(* ====================================================================== *)
(** ** A program logic for policies *)
(* ====================================================================== *)

Lemma within_ret (p : Policy) {A} (a : A) (Q : A -> Prop) :
  Q a -> within p (ret a) Q.
Proof. intros H tr. exists []. cbn. now rewrite app_nil_r. Qed.

Lemma within_bind (p : Policy) {A B} (m : M A) (k : A -> M B)
    (Q : A -> Prop) (R : B -> Prop) :
  within p m Q -> (forall a, Q a -> within p (k a) R) -> within p (bind m k) R.
Proof.
  intros Hm Hk tr. unfold bind.
  destruct (Hm tr) as (new1 & E1 & P1 & R1).
  destruct (m tr) as [[a|e] tr1]; cbn [fst snd] in *; subst tr1.
  - destruct (Hk a R1 (tr ++ new1)%list) as (new2 & E2 & P2 & R2).
    exists (new1 ++ new2)%list. rewrite E2, app_assoc.
    split; [reflexivity|]. split; [|exact R2].
    now rewrite forallb_app, P1, P2.
  - exists new1. auto.
Qed.

Lemma within_weaken (p : Policy) {A} (m : M A) (Q R : A -> Prop) :
  within p m Q -> (forall a, Q a -> R a) -> within p m R.
Proof.
  intros Hm HQR tr. destruct (Hm tr) as (new & E & P & H).
  exists new. split; [exact E|]. split; [exact P|].
  destruct (fst (m tr)); auto.
Qed.

Lemma within_emit (p : Policy) (e : Event) :
  permits p e = true -> within p (emit e) any.
Proof.
  intros H tr. exists [e]. cbn. rewrite H. repeat split.
Qed.

Lemma within_print (p : Policy) (o : Output) :
  permits p (EvPrint o) = true -> within p (console_print o) any.
Proof. apply within_emit. Qed.

Lemma within_sleep (p : Policy) (n : Z) :
  allow_sleep p n = true -> within p (time_sleep n) any.
Proof. apply (within_emit p (EvSleep n)). Qed.

Lemma within_raise_exit (p : Policy) {A} (Q : A -> Prop) :
  within p (raise (Exit 1)) Q.
Proof. intros tr. exists []. cbn. now rewrite app_nil_r. Qed.

Lemma within_when (p : Policy) (c : bool) (body : M unit) :
  within p body any -> within p (when c body) any.
Proof. intros H. destruct c; [exact H | now apply within_ret]. Qed.

Lemma rstrip_cons (c d : ascii) (s r : string) :
  PyStr.rstrip s = String d r -> PyStr.rstrip (String c s) = String c (String d r).
Proof. intros H. cbn [PyStr.rstrip]. now rewrite H. Qed.

Lemma rstrip_idempotent (s : string) :
  PyStr.rstrip (PyStr.rstrip s) = PyStr.rstrip s.
Proof.
  induction s as [|c s IH]; [reflexivity|].
  cbn [PyStr.rstrip]. destruct (PyStr.rstrip s) as [|d r] eqn:E.
  - destruct (PyStr.isspace c) eqn:C; cbn; [reflexivity|]. now rewrite C.
  - now apply rstrip_cons.
Qed.

Lemma lstrip_starts_clean (s : string) :
  match PyStr.lstrip s with
  | EmptyString => True
  | String c _ => PyStr.isspace c = false
  end.
Proof.
  induction s as [|c s IH]; cbn; [exact I|].
  destruct (PyStr.isspace c) eqn:C; [exact IH | exact C].
Qed.

Lemma strip_trimmed (s : string) : trimmed (PyStr.strip s).
Proof.
  unfold trimmed, PyStr.strip.
  pose proof (lstrip_starts_clean s) as H.
  destruct (PyStr.lstrip s) as [|c t] eqn:E; [reflexivity|].
  assert (Hr : exists r, PyStr.rstrip (String c t) = String c r).
  { cbn [PyStr.rstrip]. destruct (PyStr.rstrip t); [|now eexists].
    rewrite H. now eexists. }
  destruct Hr as [r Hr]. rewrite Hr. cbn [PyStr.lstrip]. rewrite H.
  rewrite <- Hr. apply rstrip_idempotent.
Qed.

Lemma within_strip_of (p : Policy) (x : option string) :
  has_text x -> within p (strip_of x) trimmed.
Proof. intros [s ->]. apply within_ret. apply strip_trimmed. Qed.

Section Within.

Variable env : Env.
Variable p : Policy.

Lemma within_which (tool : string) : within p (shutil_which env tool) any.
Proof. intros tr. exists [EvWhich tool]. cbn. repeat split. Qed.

Lemma within_subprocess (c : Call) :
  allow_run p c = true ->
  within p (subprocess_run env c)
         (fun r => capture_output c = true -> has_text (stdout r)).
Proof.
  intros H tr. eexists [_]. split; [reflexivity|]. cbn. rewrite H.
  split; [reflexivity|]. intros ->. now eexists.
Qed.

Lemma within_run_command argv step total title description capture input_data skip :
  allow_run p (mkCall argv (capture || skip) input_data) = true ->
  allow_header p step total title = true ->
  within p (run_command env argv step total title description capture input_data skip)
         (fun r => capture = true -> has_text (stdout r)).
Proof.
  intros Hr Hh tr.
  set (c := mkCall argv (capture || skip) input_data) in *.
  set (raw := proc env (nruns tr) c).
  assert (Hintro : forall r rest,
            forallb (permits p) rest = true ->
            forallb (permits p)
              (step_intro argv step total title description ++ [EvRun c r] ++ rest)%list
            = true).
  { intros r rest Hrest. cbn. now rewrite Hh, Hr, Hrest. }
  destruct (Z.eq_dec (exit_status raw) 0) as [H0|H0].
  - rewrite (run_command_success _ _ _ _ _ _ _ _ _ _ H0). fold c raw.
    eexists. split; [cbn [snd]; rewrite <- !app_assoc; reflexivity|].
    split; [apply Hintro; now destruct (capture && _)|].
    cbn [fst]. intros ->. cbn. now eexists.
  - destruct (skip && _is_already_exists_error (err raw)) eqn:E.
    + apply andb_true_iff in E as [Es Ee].
      rewrite (run_command_skipped _ _ _ _ _ _ _ _ _ _ H0 Es Ee). fold c raw.
      eexists. split; [cbn [snd]; rewrite <- !app_assoc; reflexivity|].
      split; [now apply Hintro|].
      cbn [fst]. intros ->. cbn. now eexists.
    + rewrite (run_command_failed _ _ _ _ _ _ _ _ _ _ H0 E). fold c raw.
      eexists. split; [cbn [snd]; rewrite <- !app_assoc; reflexivity|].
      split; [apply Hintro; now destruct ((capture || skip) && _)|reflexivity].
Qed.

End Within.

(** Deriving [within] along the structure of a program. *)
Ltac within_side := first [ reflexivity | vm_compute; reflexivity ].

Ltac within_leaf :=
  first
    [ apply within_print; within_side
    | apply within_sleep; within_side
    | apply within_which
    | apply within_subprocess; within_side
    | apply within_run_command; within_side
    | apply within_raise_exit
    | apply within_strip_of; post_text
    | apply within_ret; first [ exact I | assumption ]
    | apply (within_ret _ _ any); exact I ].

Ltac within_tac :=
  cbn [for_ enumerate enumerate_from apis when];
  lazymatch goal with
  | |- within _ (bind _ _) _ =>
      eapply within_bind; [within_tac | intros ? ?; cbv beta in *; within_tac]
  | |- within _ (when _ _) _ => apply within_when; within_tac
  | |- within _ (if ?b then _ else _) _ => destruct b; within_tac
  | |- within _ (match ?m with own => _ | shared => _ end) _ => destruct m; within_tac
  | |- within _ _ _ =>
      first [ within_leaf
            | eapply within_weaken; [within_leaf | intros; exact I] ]
  end.

Section Rules.

Variable env : Env.

Lemma app_keeps_house_rules (inv : Invocation) :
  within (house_rules inv) (app env inv) any.
Proof.
  destruct inv as [country pid pname owner repo [|] | country owner repo
                  | pid pname owner repo [|] | owner repo pid [|] number];
    cbn [app];
    unfold cmd_all, github, gcp, secrets, check_prerequisites, setup_github,
      setup_gcp, _setup_gcp_own, _setup_gcp_shared, setup_secrets, _step_header;
    cbv zeta; within_tac.
Qed.

Lemma check_prerequisites_only_asks (need_gh need_gcloud : bool) :
  within login_queries_only (check_prerequisites env need_gh need_gcloud) any.
Proof. unfold check_prerequisites. within_tac. Qed.

Lemma setup_gcp_shared_within (gh_owner gh_repo_name : string) (off total : Z) :
  within gcloud_without_creation
         (_setup_gcp_shared env gh_owner gh_repo_name off total) trimmed.
Proof. unfold _setup_gcp_shared. cbv zeta. within_tac. Qed.

Lemma setup_gcp_own_within (pid pname gh_owner gh_repo_name : string) (off total : Z) :
  within anything
         (_setup_gcp_own env pid pname gh_owner gh_repo_name off total) trimmed.
Proof. unfold _setup_gcp_own, _step_header. cbv zeta. within_tac. Qed.

End Rules.

(* ====================================================================== *)
(** ** More on [run_command] *)
(* ====================================================================== *)





(* ====================================================================== *)
(** ** More on the prerequisites *)
(* ====================================================================== *)

Lemma truthy_strip (s : string) :
  PyStr.truthy (PyStr.strip s) = negb (PyStr.all_space s).
Proof.
  destruct (PyStr.all_space s) eqn:E.
  - apply strip_empty_iff in E. now rewrite E.
  - destruct (PyStr.strip s) eqn:S; [|reflexivity].
    apply strip_empty_iff in S. congruence.
Qed.

Lemma nruns_after_which (tr : Trace) (tool : string) :
  nruns (tr ++ [EvWhich tool])%list = nruns tr.
Proof. rewrite nruns_app. cbn. lia. Qed.

(** The GitHub half of the prerequisites. *)
Lemma gh_prerequisite (env : Env) (tr : Trace) :
  (fst (check_prerequisites env true false tr) = Ret tt
   <-> which env "gh" <> None
       /\ exit_status (proc env (nruns tr) gh_auth_status) = 0)
  /\ (fst (check_prerequisites env true false tr) = Ret tt ->
      nruns (snd (check_prerequisites env true false tr)) = S (nruns tr)).
Proof.
  unfold check_prerequisites, gh_auth_status. cbn [when].
  unfold bind, ret, raise, shutil_which, subprocess_run, console_print, emit.
  destruct (which env "gh") as [path|]; cbn [is_None when fst snd].
  - unfold ret. rewrite nruns_after_which.
    cbn [returncode completed].
    destruct (Z.eqb_spec (exit_status (proc env (nruns tr) (mkCall ["gh"; "auth"; "status"] true None))) 0)
      as [H0|H0]; cbn [negb when]; unfold ret; cbn [fst snd].
    + split; [split; [intros _; split; [discriminate|exact H0] | reflexivity]|].
      intros _. rewrite !nruns_app. cbn. lia.
    + split; [split; [discriminate | intros [_ H]; contradiction] | discriminate].
  - split; [split; [discriminate | intros [H _]; now contradiction H] | discriminate].
Qed.

(** The Google Cloud half of the prerequisites. *)
Lemma gcloud_prerequisite (env : Env) (tr : Trace) :
  fst (check_prerequisites env false true tr) = Ret tt
  <-> which env "gcloud" <> None
      /\ exit_status (proc env (nruns tr) gcloud_auth_list) = 0
      /\ PyStr.all_space (out (proc env (nruns tr) gcloud_auth_list)) = false.
Proof.
  unfold check_prerequisites, gcloud_auth_list. cbn [when].
  unfold bind, ret, raise, shutil_which, subprocess_run, console_print, emit.
  destruct (which env "gcloud") as [path|]; cbn [is_None when fst snd].
  - unfold ret. rewrite nruns_after_which.
    cbn [returncode stdout completed capture_output strip_of].
    set (raw := proc env (nruns tr) _).
    destruct (Z.eqb_spec (exit_status raw) 0) as [H0|H0];
      cbn [negb when]; unfold ret; cbn [fst snd].
    + rewrite truthy_strip.
      destruct (PyStr.all_space (out raw)); cbn [negb when]; unfold ret;
        cbn [fst snd].
      * split; [discriminate | intros (_ & _ & H); discriminate].
      * split; [intros _; repeat split; [discriminate|exact H0] | reflexivity].
    + split; [discriminate | intros (_ & H & _); contradiction].
  - split; [discriminate | intros [H _]; now contradiction H].
Qed.

(** Both halves, one after the other. *)
Lemma check_prerequisites_both (env : Env) (tr : Trace) :
  check_prerequisites env true true tr
  = match check_prerequisites env true false tr with
    | (Ret _, tr') => check_prerequisites env false true tr'
    | (Raise e, tr') => (Raise e, tr')
    end.
Proof.
  unfold check_prerequisites.
  set (GH := when true _). set (GC := when true _). cbn [when].
  unfold bind, ret. destruct (GH tr) as [[[]|e] tr']; reflexivity.
Qed.



(* ====================================================================== *)
(** ** What the sub-commands never do *)
(* ====================================================================== *)

Lemma starts_with_both (a b : list string) :
  starts_with a b = true -> starts_with b a = true -> a = b.
Proof.
  revert b. induction a as [|x a IH]; intros [|y b]; cbn; try discriminate; auto.
  intros H1 H2. apply andb_true_iff in H1 as [Hxy H1].
  apply andb_true_iff in H2 as [_ H2].
  apply String.eqb_eq in Hxy. subst y. f_equal. now apply IH.
Qed.

Lemma same_argv_eq (a b : list string) : same_argv a b = true -> a = b.
Proof.
  unfold same_argv. intros H. apply andb_true_iff in H as [H1 H2].
  now apply starts_with_both.
Qed.

(** What a permitted trace holds. *)
Lemma permitted_runs (p : Policy) (tr : Trace) (argv : list string) :
  forallb (permits p) tr = true ->
  In argv (commands tr) ->
  exists c, cmd c = argv /\ allow_run p c = true.
Proof.
  induction tr as [|e tr IH]; cbn; [tauto|].
  intros H. apply andb_true_iff in H as [He H].
  destruct e as [c r| | |o]; cbn; auto.
  intros [<-|Hin]; [now exists c | now apply IH].
Qed.

Lemma permitted_headers (p : Policy) (tr : Trace) (s t : Z) (title : string) :
  forallb (permits p) tr = true ->
  In (s, t, title) (headers tr) ->
  allow_header p s t title = true.
Proof.
  induction tr as [|e tr IH]; cbn; [tauto|].
  intros H. apply andb_true_iff in H as [He H].
  destruct e as [| | |o]; cbn; auto.
  destruct o; cbn; auto.
  intros [Heq|Hin]; [now inversion Heq; subst | now apply IH].
Qed.

Lemma permitted_sleeps (p : Policy) (tr : Trace) (n : Z) :
  forallb (permits p) tr = true ->
  In (ASleep n) (actions tr) ->
  allow_sleep p n = true.
Proof.
  induction tr as [|e tr IH]; cbn; [tauto|].
  intros H. apply andb_true_iff in H as [He H].
  destruct e as [c r| |m|o]; cbn; auto.
  - intros [Heq|Hin]; [discriminate | now apply IH].
  - intros [Heq|Hin]; [now inversion Heq; subst | now apply IH].
Qed.

(** What one invocation did, from the empty trace, is permitted by its
    house rules. *)
Lemma app_trace_permitted (env : Env) (inv : Invocation) :
  forallb (permits (house_rules inv)) (snd (app env inv [])) = true.
Proof.
  destruct (app_keeps_house_rules env inv []) as (new & E & P & _).
  now rewrite E.
Qed.

(** Every process that an invocation starts belongs to a tool that the
    invocation has checked first: [github] and [secrets] start [gh] only,
    [gcp] starts [gcloud] only, [all] starts both. *)
Theorem invocation_runs_only_checked_tools
    (env : Env) (inv : Invocation) (argv : list string) :
  In argv (commands (snd (app env inv []))) ->
  uses_tool inv argv = true.
Proof.
  intros H.
  destruct (permitted_runs _ _ _ (app_trace_permitted env inv) H) as (c & <- & Hc).
  cbn in Hc. now apply andb_true_iff in Hc as [Hc _].
Qed.

Lemma invocation_runs_only_checked_tools_witness :
  uses_tool (InvokeSecrets "owner" "repo" "proj-id" own "123")
            ["gh"; "secret"; "set"; "GCP_SERVICE_ACCOUNT"; "--repo"; "owner/repo";
             "--body"; "github-actions@proj-id.iam.gserviceaccount.com"]
  = true.
Proof.
  apply (invocation_runs_only_checked_tools (Sample.all_ok "")
           (InvokeSecrets "owner" "repo" "proj-id" own "123")).
  vm_compute. auto 10.
Defined.



(** Every step header of an invocation shows the total of that invocation
    (13 or 7 for [all], 3 for [github], 2 for [secrets] and for [gcp] in
    mode [shared], 7 for [gcp] in mode [own]) and a step number from 1 up to
    that total, up to 8 for [gcp] in mode [own]. *)
Theorem step_headers_stay_in_range
    (env : Env) (inv : Invocation) (s t : Z) (title : string) :
  In (s, t, title) (headers (snd (app env inv []))) ->
  t = shown_total inv /\ 1 <= s <= last_step inv.
Proof.
  intros H.
  pose proof (permitted_headers _ _ _ _ _ (app_trace_permitted env inv) H) as P.
  cbn in P. apply andb_true_iff in P as [P H3].
  apply andb_true_iff in P as [H1 H2].
  apply Z.eqb_eq in H1. apply Z.leb_le in H2, H3. lia.
Qed.

Lemma step_headers_stay_in_range_witness :
  2 = shown_total (InvokeSecrets "owner" "repo" "proj-id" shared "123")
  /\ 1 <= 2 <= last_step (InvokeSecrets "owner" "repo" "proj-id" shared "123").
Proof.
  apply (step_headers_stay_in_range (Sample.all_ok "")
           (InvokeSecrets "owner" "repo" "proj-id" shared "123")
           2 2 "Set GCP_SERVICE_ACCOUNT Secret").
  vm_compute. auto 10.
Defined.

(** An invocation sleeps only when it provisions an own project, and then
    for 30 seconds: [github], [secrets] and mode [shared] never sleep. *)
Theorem only_own_provisioning_sleeps
    (env : Env) (inv : Invocation) (n : Z) :
  In (ASleep n) (actions (snd (app env inv []))) ->
  n = 30 /\ may_sleep inv = true.
Proof.
  intros H.
  pose proof (permitted_sleeps _ _ _ (app_trace_permitted env inv) H) as P.
  cbn in P. apply andb_true_iff in P as [Hm Hn].
  apply Z.eqb_eq in Hn. auto.
Qed.

Lemma only_own_provisioning_sleeps_witness :
  30 = 30 /\ may_sleep (InvokeGcp "proj-id" "Proj Name" "owner" "repo" own) = true.
Proof.
  apply (only_own_provisioning_sleeps (Sample.all_ok ("123456789" ++ LF))
           (InvokeGcp "proj-id" "Proj Name" "owner" "repo" own) 30).
  vm_compute. auto 20.
Defined.

(** [check_prerequisites] starts nothing but the two login queries,
    [gh auth status] and [gcloud auth list]: it prints no step header, does
    not sleep, and ends by returning or by [typer.Exit(code=1)]. *)
Theorem check_prerequisites_only_queries
    (env : Env) (need_gh need_gcloud : bool) (tr : Trace) :
  exists new,
    snd (check_prerequisites env need_gh need_gcloud tr) = (tr ++ new)%list
    /\ (forall argv, In argv (commands new) ->
          argv = ["gh"; "auth"; "status"]
          \/ argv = ["gcloud"; "auth"; "list"; "--filter=status:ACTIVE";
                     "--format=value(account)"])
    /\ headers new = []
    /\ (forall n, ~ In (ASleep n) (actions new))
    /\ (fst (check_prerequisites env need_gh need_gcloud tr) = Ret tt
        \/ fst (check_prerequisites env need_gh need_gcloud tr) = Raise (Exit 1)).
Proof.
  destruct (check_prerequisites_only_asks env need_gh need_gcloud tr)
    as (new & E & P & R).
  exists new. split; [exact E|]. split; [|split; [|split]].
  - intros argv H. destruct (permitted_runs _ _ _ P H) as (c & <- & Hc).
    cbn in Hc. apply orb_true_iff in Hc as [Hc|Hc];
      apply same_argv_eq in Hc; auto.
  - destruct (headers new) as [|[[s t] title] hs] eqn:Hh; [reflexivity|].
    assert (Hin : In (s, t, title) (headers new)) by (rewrite Hh; now left).
    apply (permitted_headers _ _ _ _ _ P) in Hin. discriminate.
  - intros n H. apply (permitted_sleeps _ _ _ P) in H. discriminate.
  - destruct (fst (check_prerequisites env need_gh need_gcloud tr)) as [[]|e];
      [now left | right; now subst].
Qed.

(* ====================================================================== *)
(** ** More on the phases *)
(* ====================================================================== *)

(** What [setup_github] does once the query for the repository is
    answered. *)
Lemma setup_github_after_query (env : Env)
    (gh_owner gh_repo_name country_name : string) (off total : Z) (tr : Trace) :
  let c := repo_view_query gh_owner gh_repo_name in
  let r := completed c (proc env (nruns tr) c) in
  forall p : Policy,
    (exit_status (proc env (nruns tr) c) = 0 -> p = no_creation) ->
    (exit_status (proc env (nruns tr) c) <> 0 -> p = anything) ->
    exists new,
      snd (setup_github env gh_owner gh_repo_name country_name off total tr)
      = (tr ++ EvRun c r :: new)%list
      /\ forallb (permits p) new = true.
Proof.
  intros c r p Hyes Hno.
  unfold setup_github. cbv zeta. fold (repo_view_query gh_owner gh_repo_name).
  fold c. unfold bind at 1. unfold subprocess_run at 1. fold r.
  match goal with
  | |- context [snd (?k (tr ++ [EvRun c r])%list)] =>
      assert (W : within p k any)
  end.
  { cbn [returncode r completed].
    destruct (Z.eqb_spec (exit_status (proc env (nruns tr) c)) 0) as [H0|H0].
    - rewrite (Hyes H0). unfold _step_header. within_tac.
    - rewrite (Hno H0). within_tac. }
  destruct (W (tr ++ [EvRun c r])%list) as (new & E & P & _).
  exists new. rewrite E, <- app_assoc. split; [reflexivity | exact P].
Qed.

(** When the query finds the repository, [setup_github] issues no creation
    command, whatever happens to the later steps; when the query fails, the
    next process it starts is the creation from the template. *)
Theorem repository_created_only_when_absent
    (env : Env) (gh_owner gh_repo_name country_name : string) (off total : Z)
    (tr : Trace) :
  let view := repo_view_query gh_owner gh_repo_name in
  let found := exit_status (proc env (nruns tr) view) = 0 in
  let create :=
    ["gh"; "repo"; "create"; gh_repo_name;
     "--template=RLE-Assessment/TEMPLATE-rle-assessment";
     "--description=An IUCN Red List of Ecosystems assessment for " ++ country_name;
     "--public"; "--include-all-branches"] in
  exists new,
    commands (snd (setup_github env gh_owner gh_repo_name country_name off total tr))
    = (commands tr ++ cmd view :: new)%list
    /\ (found -> existsb creates new = false)
    /\ (~ found -> exists rest, new = create :: rest).
Proof.
  intros view found create. subst found.
  destruct (Z.eq_dec (exit_status (proc env (nruns tr) view)) 0) as [H0|H0].
  - destruct (setup_github_after_query env gh_owner gh_repo_name country_name
                off total tr no_creation (fun _ => eq_refl)
                (fun H => False_ind _ (H H0))) as (new & E & P).
    exists (commands new). rewrite E, commands_app. split; [reflexivity|].
    split; [|contradiction]. intros _.
    destruct (existsb creates (commands new)) eqn:X; [|reflexivity].
    apply existsb_exists in X as (argv & Hin & Hc).
    destruct (permitted_runs _ _ _ P Hin) as (c & <- & Hallow).
    cbn in Hallow. now rewrite Hc in Hallow.
  - unfold setup_github. cbv zeta. fold (repo_view_query gh_owner gh_repo_name).
    fold view. unfold bind at 1, subprocess_run at 1.
    cbn [returncode completed]. apply Z.eqb_neq in H0 as H0'. rewrite H0'.
    set (r := completed view (proc env (nruns tr) view)).
    match goal with
    | |- context [bind (bind (run_command env ?a ?s ?t ?ti ?d ?cap ?i ?sk) _) ?k] =>
        set (K := k);
        destruct (run_step_cases env (mkStep a s t ti d cap i sk)
                    (tr ++ [EvRun view r])%list) as (new1 & E1 & C1 & _);
        unfold run_step in E1; cbn [step_cmd step_no step_total step_title
          step_description step_capture step_input_data step_skip_if_exists] in E1, C1;
        assert (WK : forall u, within anything (K u) any)
          by (intros u; subst K; within_tac);
        unfold bind at 1; unfold bind at 1;
        destruct (run_command env a s t ti d cap i sk (tr ++ [EvRun view r])%list)
          as [[r1|e1] tr1]; cbn [snd] in E1; subst tr1
    end.
    + unfold ret at 1.
      destruct (WK tt ((tr ++ [EvRun view r]) ++ new1)%list) as (new2 & E2 & _).
      rewrite E2. exists (commands new1 ++ commands new2)%list.
      rewrite !commands_app, C1. cbn. rewrite <- !app_assoc. cbn.
      split; [reflexivity|]. split; [contradiction|]. intros _. now eexists.
    + exists (commands new1). cbn [snd]. rewrite !commands_app, C1. cbn.
      rewrite <- !app_assoc. cbn.
      split; [reflexivity|]. split; [contradiction|]. intros _. now eexists.
Qed.

Lemma repository_created_only_when_absent_witness :
  existsb creates
    (commands (snd (setup_github (Sample.all_ok "") "owner" "repo" "Ruritania" 0 3 [])))
  = false.
Proof.
  destruct (repository_created_only_when_absent
              (Sample.all_ok "") "owner" "repo" "Ruritania" 0 3 [])
    as (new & E & Hfound & _).
  rewrite E. cbn [commands List.app existsb]. apply Hfound. reflexivity.
Defined.



(* ====================================================================== *)
(** ** Resuming the provisioning of an own project *)
(* ====================================================================== *)

Section Resume.

Variable env : Env.
Variables pid pname gh_owner gh_repo_name : string.
Variables off total : Z.
Variable n : nat.

(** A creation under [skip_if_exists] that exits with status 0 or reports
    that the resource exists. *)
Lemma runs_command_ok_or_skipped
    (argv : list string) (step : Z) (title description : string)
    (capture : bool) (input_data : option string) (k : nat) :
  let c := mkCall argv (capture || true) input_data in
  (exit_status (proc env k c) <> 0 ->
   _is_already_exists_error (err (proc env k c)) = true) ->
  runs_from k
    (run_command env argv step total title description capture input_data true)
    (completed c (proc env k c))
    (step_items step total title argv (capture || true) input_data
                (creation_outcome (proc env k c))).
Proof.
  intros c H. unfold creation_outcome. fold c.
  destruct (Z.eqb_spec (exit_status (proc env k c)) 0) as [H0|H0].
  - now apply runs_command_ok.
  - apply runs_command_skipped; auto.
Qed.

Hypothesis Hok :
  forall k c, (n < k)%nat ->
    exit_status (proc env k c) = 0
    \/ (reactive_create (cmd c) = true
        /\ _is_already_exists_error (err (proc env k c)) = true).

Let number := PyStr.strip (out (proc env (13 + n) (project_number_query pid))).

Lemma setup_gcp_own_resumes :
  exists items,
    runs_from n
      (_setup_gcp_own env pid pname gh_owner gh_repo_name off total)
      number items
    /\ milestones items
       = [ MStep "Create GCP Project";
           MStep "Ensure Owner Permissions";
           MSleep 30;
           MStep "Enable API (1/4)"; MStep "Enable API (2/4)";
           MStep "Enable API (3/4)"; MStep "Enable API (4/4)";
           MStep "Create Workload Identity Pool";
           MStep "Create OIDC Provider";
           MStep "Create Service Account";
           MStep "Grant IAM Roles (1/2)"; MStep "Grant IAM Roles (2/2)";
           MStep "Get GCP Project Number";
           MStep "Bind Repository to Service Account" ]
    /\ ~ In failed (item_outcomes items)
    /\ existsb (fun argv => starts_with ["gcloud"; "projects"; "create"] argv)
               (item_commands items)
       = negb (project_exists (proc env n (project_exists_query pid)) pid).
Proof.
  unfold _setup_gcp_own.
  destruct (project_exists (proc env n (project_exists_query pid)) pid) eqn:Hex;
    unfold project_exists_query in Hex;
    (eexists; split;
     [ eapply runs_conv;
       [ runs_go ltac:(first
           [ apply runs_project_check
           | rewrite Hex
           | match goal with
             | |- runs_from ?k (run_command _ ?argv _ _ _ _ ?cap ?inp ?sk) _ _ =>
                 first
                   [ apply runs_command_ok;
                     let H := fresh "H" in
                     destruct (Hok k (mkCall argv (cap || sk) inp) ltac:(lia))
                       as [H|[H _]];
                     [exact H | vm_compute in H; discriminate H]
                   | apply runs_command_ok_or_skipped;
                     let H := fresh "H" in
                     let Hne := fresh "Hne" in
                     intros Hne;
                     destruct (Hok k (mkCall argv (cap || sk) inp) ltac:(lia))
                       as [H|[_ H]];
                     [contradiction | exact H] ]
             end ])
       | reflexivity | reflexivity ]
     | split; [vm_compute; reflexivity|];
       split; [|vm_compute; reflexivity];
       cbn; unfold creation_outcome;
       repeat match goal with
              | |- context [(exit_status ?r =? 0)%Z] =>
                  destruct (exit_status r =? 0)%Z
              end;
       intuition discriminate ]).
Qed.

End Resume.



(* ====================================================================== *)
(** ** More on the second script *)
(* ====================================================================== *)

Module UploadDemoAssetMore.

Import UploadDemoAsset.

Lemma poll_step (ee : EarthEngine) (fuel : nat) (tr : Trace) :
  poll ee (S fuel) tr
  = if active_at ee (npolls tr)
    then poll ee fuel (tr ++ [TaskActive true; Sleep 2])%list
    else (Ret tt, (tr ++ [TaskActive false])%list).
Proof.
  cbn [poll]. unfold bind, task_active, emit, ret.
  destruct (active_at ee (npolls tr)); [|reflexivity].
  now rewrite <- app_assoc.
Qed.

(** The polling loop only polls and sleeps, two seconds at a time; it ends
    by returning or with the fuel spent, never by an exception. *)
Lemma poll_extends (ee : EarthEngine) (fuel : nat) :
  forall tr, exists new,
    snd (poll ee fuel tr) = (tr ++ new)%list
    /\ forallb (fun e => match e with
                         | TaskActive _ | Sleep 2 => true
                         | _ => false
                         end) new = true
    /\ (fst (poll ee fuel tr) = Ret tt \/ fst (poll ee fuel tr) = StillPolling).
Proof.
  induction fuel as [|fuel IH]; intros tr.
  - exists []. cbn. rewrite app_nil_r. auto.
  - rewrite poll_step. destruct (active_at ee (npolls tr)).
    + destruct (IH (tr ++ [TaskActive true; Sleep 2])%list)
        as (new & E & P & R).
      exists (TaskActive true :: Sleep 2 :: new).
      rewrite E, <- app_assoc. cbn. rewrite P.
      split; [reflexivity|]. split; [reflexivity|]. exact R.
    + exists [TaskActive false]. cbn. auto.
Qed.

Lemma uploads_app (a b : Trace) : uploads (a ++ b)%list = uploads a || uploads b.
Proof. apply existsb_app. Qed.

Lemma polling_uploads_nothing (new : Trace) :
  forallb (fun e => match e with
                    | TaskActive _ | Sleep 2 => true
                    | _ => false
                    end) new = true ->
  uploads new = false.
Proof.
  unfold uploads. induction new as [|e new IH]; cbn; [reflexivity|].
  intros H. apply andb_true_iff in H as [He H]. rewrite (IH H).
  destruct e; try discriminate; reflexivity.
Qed.




End UploadDemoAssetMore.
